(** * PUDL datastore: resource retrieval, checksum validation and caching

    A shallow embedding of [src/pudl/workspace/datastore.py]:
    [DatapackageDescriptor], [ZenodoFetcher] and [Datastore].

    Python dictionaries are finite maps ([gmap]), Python exceptions are the
    [Raise] results of a state-and-exception monad, and everything the
    module reaches through third-party packages (the HTTP server, [json],
    [datapackage]) is collected in the [Externals] class. *)

From Stdlib Require Import ZArith List String Bool Lia.
From stdpp Require Import base option list gmap strings pretty sorting.
From Equations Require Import Equations.
From Equations.Prop Require Import Logic.

Local Open Scope string_scope.
Local Open Scope Z_scope.

(** ** Python values

    The values a [parts] entry or a keyword argument may hold.  The code
    looks at them through [str()], through their truth value and through
    equality with a string, so any value that is not [None], a boolean, an
    integer or a string (a float, a list) is kept as its string form and
    its truth value. *)

Inductive pyval : Type :=
  | PyNone
  | PyBool (b : bool)
  | PyInt (z : Z)
  | PyStr (s : string)
  | PyOther (form : string) (truth : bool).

#[global] Instance pyval_eq_dec : EqDecision pyval.
Proof. solve_decision. Defined.

(** Python's built-in [str()]. *)
Definition str (v : pyval) : string :=
  match v with
  | PyNone => "None"
  | PyBool true => "True"
  | PyBool false => "False"
  | PyInt z => pretty z
  | PyStr s => s
  | PyOther form _ => form
  end.

Definition newline : string := String (Ascii.ascii_of_nat 10) "".

(** The truth value [if v] and [not v] take. *)
Definition truthy (v : pyval) : bool :=
  match v with
  | PyNone => false
  | PyBool b => b
  | PyInt z => negb (z =? 0)
  | PyStr s => negb (String.eqb s "")
  | PyOther _ truth => truth
  end.

(** An optional string is a string or [None]. *)
Definition of_opt (o : option string) : pyval :=
  match o with Some s => PyStr s | None => PyNone end.

(** [a or b] on optional strings. *)
Definition py_or (a b : option string) : option string :=
  if truthy (of_opt a) then a else b.

(** ** PudlResourceKey

    The named tuple [(dataset, doi, name)] imported from
    [pudl.workspace.resource_cache]. *)

Module PudlResourceKey.
Record t : Type := mk { dataset : string; doi : string; name : string }.

#[global] Instance eq_dec : EqDecision t.
Proof. solve_decision. Defined.

#[global] Instance countable : Countable t.
Proof.
  refine (inj_countable' (fun k => (dataset k, doi k, name k))
                         (fun p => mk p.1.1 p.1.2 p.2) _).
  by intros [].
Defined.
End PudlResourceKey.

(** ** datapackage.json

    One entry of the ["resources"] list.  ["name"] is required by the
    datapackage schema; the other keys are read with [.get], or with
    [[...]] and a possible [KeyError]. *)

Record Resource : Type := {
  r_name : string;
  r_path : option string;
  r_remote_url : option string;
  r_hash : option string;
  r_parts : option (gmap string pyval)
}.

Record DatapackageJson : Type := { resources : list Resource }.

(** ** Exceptions and the state-and-exception monad

    A Python method that mutates objects and may raise is a function from
    the state to the new state and a [result]; the state survives a raise,
    as side effects do. *)

Inductive exn : Type :=
  | KeyError (msg : string)
  | ValueError (msg : string)
  | ChecksumMismatch (msg : string)
  | RuntimeError (msg : string)
  | JSONDecodeError
  | InvalidSchema (url : string)
  | RetryError (url : string)
  | ConnectionError (url : string).

Inductive result (A : Type) : Type :=
  | Return (a : A)
  | Raise (e : exn).
Arguments Return {A} a.
Arguments Raise {A} e.

Definition M (S A : Type) : Type := S -> S * result A.

Definition ret {S A} (a : A) : M S A := fun s => (s, Return a).
Definition raise {S A} (e : exn) : M S A := fun s => (s, Raise e).
Definition bind {S A B} (m : M S A) (k : A -> M S B) : M S B :=
  fun s => match m s with
           | (s', Return a) => k a s'
           | (s', Raise e) => (s', Raise e)
           end.
Definition gets {S A} (f : S -> A) : M S A := fun s => (s, Return (f s)).
Definition modify {S} (f : S -> S) : M S unit := fun s => (f s, Return tt).
(** A pure computation that may raise. *)
Definition lift {S A} (r : result A) : M S A := fun s => (s, r).

Declare Scope py_scope.
Delimit Scope py_scope with py.
Notation "x <- m ;; k" := (bind m (fun x => k))
  (at level 100, m at next level, right associativity) : py_scope.
Notation "m ;;; k" := (bind m (fun _ => k))
  (at level 100, right associativity) : py_scope.
Local Open Scope py_scope.

(** ** HTTP messages *)

Record Request : Type := { url : string; params : list (string * string) }.

Record Response : Type := {
  status_code : Z;
  content : string;     (* the body, as bytes *)
  text : string         (* the body, decoded *)
}.

(** What one attempt of a request ends in: a response, or a failure at
    connection level (refused or broken connection, timeout). *)
Inductive Outcome : Type :=
  | Responded (r : Response)
  | ConnectionFailed.

(** One entry of the ["files"] list of a Zenodo deposition: its
    ["filename"] and its ["links"]["download"]. *)
Record ZenodoFile : Type := { filename : string; links_download : string }.

(** ** What the module reaches through other packages

    The remote server; the JSON decoder, read as the ["files"] of a
    deposition and read as a datapackage, either of which may raise;
    [json.dumps(.., sort_keys=True, indent=4)]; and the error list of
    [datapackage.Package]. *)

Class Externals : Type := {
  Remote : Type;
  serve : Remote -> Request -> Outcome * Remote;
  json_files : string -> result (list ZenodoFile);
  json_datapackage : string -> result DatapackageJson;
  json_dumps : DatapackageJson -> string;
  datapackage_errors : DatapackageJson -> list string
}.

(** ** hashlib.md5

    [hashlib.md5(content).hexdigest()], after RFC 1321: 32-bit words are
    integers below [2^32], a message is padded to whole 64-byte blocks,
    and the digest is the four state words in little-endian hexadecimal. *)

Module hashlib.

Definition add32 (x y : Z) : Z := (x + y) mod 2 ^ 32.
Definition not32 (x : Z) : Z := Z.lxor x (2 ^ 32 - 1).
Definition rotl32 (x c : Z) : Z :=
  Z.lor (Z.shiftl x c mod 2 ^ 32) (Z.shiftr x (32 - c)).

Definition K : list Z :=
  [3614090360; 3905402710; 606105819; 3250441966; 4118548399; 1200080426;
   2821735955; 4249261313; 1770035416; 2336552879; 4294925233; 2304563134;
   1804603682; 4254626195; 2792965006; 1236535329; 4129170786; 3225465664;
   643717713; 3921069994; 3593408605; 38016083; 3634488961; 3889429448;
   568446438; 3275163606; 4107603335; 1163531501; 2850285829; 4243563512;
   1735328473; 2368359562; 4294588738; 2272392833; 1839030562; 4259657740;
   2763975236; 1272893353; 4139469664; 3200236656; 681279174; 3936430074;
   3572445317; 76029189; 3654602809; 3873151461; 530742520; 3299628645;
   4096336452; 1126891415; 2878612391; 4237533241; 1700485571; 2399980690;
   4293915773; 2240044497; 1873313359; 4264355552; 2734768916; 1309151649;
   4149444226; 3174756917; 718787259; 3951481745].

Definition shifts : list Z :=
  [7; 12; 17; 22; 7; 12; 17; 22; 7; 12; 17; 22; 7; 12; 17; 22;
   5; 9; 14; 20; 5; 9; 14; 20; 5; 9; 14; 20; 5; 9; 14; 20;
   4; 11; 16; 23; 4; 11; 16; 23; 4; 11; 16; 23; 4; 11; 16; 23;
   6; 10; 15; 21; 6; 10; 15; 21; 6; 10; 15; 21; 6; 10; 15; 21].

Definition bytes_of (msg : string) : list Z :=
  map (fun c => Z.of_nat (Ascii.nat_of_ascii c)) (list_ascii_of_string msg).

(** The [n] low bytes of [x], least significant first. *)
Definition le_bytes (n : nat) (x : Z) : list Z :=
  map (fun i => Z.shiftr x (8 * Z.of_nat i) mod 256) (seq 0 n).

Definition pad (bs : list Z) : list Z :=
  let len := length bs in
  (bs ++ [128] ++ repeat 0 ((119 - len mod 64) mod 64)
      ++ le_bytes 8 (8 * Z.of_nat len))%list.

Definition word_at (block : list Z) (j : nat) : Z :=
  nth (4 * j) block 0 + Z.shiftl (nth (4 * j + 1) block 0) 8
  + Z.shiftl (nth (4 * j + 2) block 0) 16
  + Z.shiftl (nth (4 * j + 3) block 0) 24.

Definition state : Type := (Z * Z * Z * Z)%type.

Definition round (block : list Z) (st : state) (i : nat) : state :=
  let '(a, b, c, d) := st in
  let '(f, g) :=
    if (i <? 16)%nat then
      (Z.lor (Z.land b c) (Z.land (not32 b) d), i)
    else if (i <? 32)%nat then
      (Z.lor (Z.land d b) (Z.land (not32 d) c), ((5 * i + 1) mod 16)%nat)
    else if (i <? 48)%nat then
      (Z.lxor b (Z.lxor c d), ((3 * i + 5) mod 16)%nat)
    else
      (Z.lxor c (Z.lor b (not32 d)), ((7 * i) mod 16)%nat) in
  let f' := add32 (add32 (add32 f a) (nth i K 0)) (word_at block g) in
  (d, add32 b (rotl32 f' (nth i shifts 0)), b, c).

Definition compress (st : state) (block : list Z) : state :=
  let '(a0, b0, c0, d0) := st in
  let '(a, b, c, d) := fold_left (round block) (seq 0 64) st in
  (add32 a0 a, add32 b0 b, add32 c0 c, add32 d0 d).

Definition blocks (bs : list Z) : list (list Z) :=
  map (fun i => firstn 64 (skipn (64 * i) bs)) (seq 0 (length bs / 64)).

Definition init : state := (1732584193, 4023233417, 2562383102, 271733878).

Definition hex_digit (x : Z) : Ascii.ascii :=
  Ascii.ascii_of_nat (Z.to_nat (if x <? 10 then 48 + x else 87 + x)).

Definition hex_byte (x : Z) : string :=
  String (hex_digit (x / 16)) (String (hex_digit (x mod 16)) EmptyString).

Definition md5_hexdigest (content : string) : string :=
  let '(a, b, c, d) := fold_left compress (blocks (pad (bytes_of content))) init in
  String.concat ""
    (map hex_byte (le_bytes 4 a ++ le_bytes 4 b ++ le_bytes 4 c ++ le_bytes 4 d)).

End hashlib.

(** ** DatapackageDescriptor *)

Module DatapackageDescriptor.

Record t : Type := mk {
  datapackage_json : DatapackageJson;
  dataset : string;
  doi : string
}.

(** [parts.get(k)]: a missing key reads as [None]. *)
Definition parts_get (parts : gmap string pyval) (k : string) : pyval :=
  default PyNone (parts !! k).

(** [_matches]: [parts = res.get('parts', {})], then [all(...)] over
    [filters.items()]. *)
Definition _matches (res : Resource) (filters : gmap string pyval) : bool :=
  let parts := default ∅ (r_parts res) in
  forallb (fun kv => String.eqb (str (parts_get parts kv.1)) (str kv.2))
          (map_to_list filters).

Definition key_of (self : t) (res : Resource) : PudlResourceKey.t :=
  PudlResourceKey.mk (dataset self) (doi self) (r_name res).

(** The [for] loop of [get_resources], with its [continue] and its
    [yield]; [name] is any value, [None] by default. *)
Fixpoint get_resources_loop (self : t) (rs : list Resource)
    (name : pyval) (filters : gmap string pyval)
    : list PudlResourceKey.t :=
  match rs with
  | [] => []
  | res :: rest =>
      if truthy name && negb (bool_decide (PyStr (r_name res) = name)) then
        get_resources_loop self rest name filters
      else if _matches res filters then
        key_of self res :: get_resources_loop self rest name filters
      else
        get_resources_loop self rest name filters
  end.

Definition get_resources (self : t) (name : pyval)
    (filters : gmap string pyval) : list PudlResourceKey.t :=
  get_resources_loop self (resources (datapackage_json self)) name filters.

Fixpoint find_resource (rs : list Resource) (name : string)
    : option Resource :=
  match rs with
  | [] => None
  | res :: rest =>
      if String.eqb (r_name res) name then Some res
      else find_resource rest name
  end.

Definition _get_resource_metadata (self : t) (name : string)
    : result Resource :=
  match find_resource (resources (datapackage_json self)) name with
  | Some res => Return res
  | None => Raise (KeyError ("Resource " +:+ name +:+ " not found for "
                             +:+ dataset self +:+ "/" +:+ doi self))
  end.

(** [res.get("remote_url") or res.get("path")], possibly [None]. *)
Definition get_resource_path (self : t) (name : string)
    : result (option string) :=
  match _get_resource_metadata self name with
  | Return res => Return (py_or (r_remote_url res) (r_path res))
  | Raise e => Raise e
  end.

(** [validate_checksum]: raises on a mismatch and returns nothing
    otherwise. *)
Definition validate_checksum (self : t) (name : string) (content : string)
    : result unit :=
  match _get_resource_metadata self name with
  | Raise e => Raise e
  | Return res =>
      match r_hash res with
      | None => Raise (KeyError "hash")
      | Some expected_checksum =>
          let hexdigest := hashlib.md5_hexdigest content in
          if negb (String.eqb hexdigest expected_checksum) then
            Raise (ChecksumMismatch
                     ("Checksum for resource " +:+ name
                      +:+ " does not match." +:+ "Expected "
                      +:+ expected_checksum +:+ ", got " +:+ hexdigest))
          else Return tt
      end
  end.

Section WithExternals.
Context `{Externals}.

Definition _validate_datapackage (datapackage_json : DatapackageJson)
    : result unit :=
  let errors := datapackage_errors datapackage_json in
  match errors with
  | [] => Return tt
  | _ =>
      Raise (ValueError
               (fold_left (fun msg e => msg +:+ "  * " +:+ e +:+ newline)
                  errors
                  ("Found " +:+ pretty (length errors)
                   +:+ " datapackage validation errors:"
                   +:+ newline)))
  end.

Definition __init__ (datapackage_json : DatapackageJson)
    (dataset doi : string) : result t :=
  match _validate_datapackage datapackage_json with
  | Return _ => Return (mk datapackage_json dataset doi)
  | Raise e => Raise e
  end.

Definition get_json_string (self : t) : string :=
  json_dumps (datapackage_json self).
End WithExternals.

End DatapackageDescriptor.

(** The network as the client sees it: the server, and the chronological
    record of what the client did (requests put on the wire, seconds
    slept between attempts). *)
Inductive event : Type :=
  | Sent (rq : Request)
  | Slept (seconds : Z).

Record Net `{Externals} : Type := { server : Remote; trace : list event }.

Section Wire.
Context `{Externals}.

Definition log (e : event) : M Net unit :=
  modify (fun n => {| server := server n; trace := trace n ++ [e] |}).

(** One attempt: the request goes out and the server answers or fails. *)
Definition send (rq : Request) (n : Net) : Net * Outcome :=
  let '(o, srv) := serve (server n) rq in
  ({| server := srv; trace := trace n ++ [Sent rq] |}, o).
End Wire.

(** ** urllib3's Retry policy

    [ZenodoFetcher.__init__] builds
    [Retry(backoff_factor=2, total=3, status_forcelist=[429, 500, 502, 503, 504])]
    and mounts it on the session.  The policy object is the library's; its
    methods are written here as the library runs them for a GET request
    whose responses carry no [Retry-After] and no [Location] header (the
    two headers the library interprets before it looks at the status).

    [total] counts the retries still allowed: [increment] takes one away
    and reports exhaustion once the count would fall below zero.
    [history] is the number of failed attempts recorded so far. *)

Module Retry.

Record t : Type := mk {
  total : nat;
  status_forcelist : list Z;
  backoff_factor : Z;
  history : nat
}.

Definition DEFAULT_BACKOFF_MAX : Z := 120.

(** [is_retry("GET", status_code)]: GET is among the allowed methods. *)
Definition is_retry (self : t) (status : Z) : bool :=
  existsb (Z.eqb status) (status_forcelist self).

(** [increment]: [None] is [MaxRetryError]. *)
Definition increment (self : t) : option t :=
  match total self with
  | O => None
  | S n => Some (mk n (status_forcelist self) (backoff_factor self)
                    (S (history self)))
  end.

Definition get_backoff_time (self : t) : Z :=
  if (history self <=? 1)%nat then 0
  else Z.min DEFAULT_BACKOFF_MAX
             (backoff_factor self * 2 ^ (Z.of_nat (history self) - 1)).

End Retry.

Section Transport.
Context `{Externals}.

(** [Retry.sleep]: nothing is slept for a backoff of zero. *)
Definition sleep (retries : Retry.t) : M Net unit :=
  let backoff := Retry.get_backoff_time retries in
  if backoff <=? 0 then ret tt else log (Slept backoff).

(** [HTTPConnectionPool.urlopen] under [HTTPAdapter.send]: the attempt
    loop.  A [MaxRetryError] leaves the adapter as [RetryError] when the
    last attempt was a response and as [ConnectionError] when it was a
    connection failure. *)
Equations urlopen (retries : Retry.t) (rq : Request) (n : Net)
    : Net * result Response by wf (Retry.total retries) lt :=
  urlopen retries rq n with send rq n := {
    | (n1, ConnectionFailed) with inspect (Retry.increment retries) := {
        | exist _ (Some r') _ => urlopen r' rq (sleep r' n1).1
        | exist _ None _ => (n1, Raise (ConnectionError (url rq))) }
    | (n1, Responded resp)
        with inspect (Retry.is_retry retries (status_code resp)) := {
        | exist _ false _ => (n1, Return resp)
        | exist _ true _ with inspect (Retry.increment retries) := {
            | exist _ (Some r') _ => urlopen r' rq (sleep r' n1).1
            | exist _ None _ => (n1, Raise (RetryError (url rq))) } } }.
Next Obligation.
  unfold Retry.increment in *.
  destruct (Retry.total retries); [discriminate|].
  match goal with e : Some _ = Some _ |- _ => injection e as <- end.
  cbn. lia.
Qed.
Next Obligation.
  unfold Retry.increment in *.
  destruct (Retry.total retries); [discriminate|].
  match goal with e : Some _ = Some _ |- _ => injection e as <- end.
  cbn. lia.
Qed.

End Transport.

(** ** requests.Session, as far as the fetcher uses it

    A session keeps one adapter per URL prefix; an adapter is its retry
    policy.  A fresh session serves both schemes without any retry. *)

Definition lower_ascii (c : Ascii.ascii) : Ascii.ascii :=
  let n := Ascii.nat_of_ascii c in
  if ((65 <=? n) && (n <=? 90))%nat then Ascii.ascii_of_nat (n + 32) else c.

Fixpoint lower (s : string) : string :=
  match s with
  | EmptyString => EmptyString
  | String c s' => String (lower_ascii c) (lower s')
  end.

Module Session.

Definition t : Type := list (string * Retry.t).

Definition new : t :=
  [("https://", Retry.mk 0 [] 0 0); ("http://", Retry.mk 0 [] 0 0)].

(** [mount(prefix, adapter)]: the adapter of a prefix already there is
    replaced. *)
Fixpoint mount (prefix : string) (adapter : Retry.t) (self : t) : t :=
  match self with
  | [] => [(prefix, adapter)]
  | (p, a) :: rest =>
      if String.eqb p prefix then (prefix, adapter) :: rest
      else (p, a) :: mount prefix adapter rest
  end.

(** [get_adapter(url)]: the first prefix the lower-cased URL starts with. *)
Fixpoint get_adapter (self : t) (url : string) : option Retry.t :=
  match self with
  | [] => None
  | (p, a) :: rest =>
      if String.prefix (lower p) (lower url) then Some a
      else get_adapter rest url
  end.

Section WithExternals.
Context `{Externals}.

(** [get(url, params=..)]: a URL that no adapter takes raises before
    anything is sent. *)
Definition get (self : t) (url : string) (params : list (string * string))
    : M Net Response :=
  match get_adapter self url with
  | None => raise (InvalidSchema url)
  | Some retries => urlopen retries {| url := url; params := params |}
  end.
End WithExternals.

End Session.

(** ** ZenodoFetcher *)

Inductive backend : Type := sandbox | production.

(** [re.search(r"zenodo.([\d]+)", doi)]: the digits of the leftmost match. *)
Definition is_digit (c : Ascii.ascii) : bool :=
  let n := Ascii.nat_of_ascii c in ((48 <=? n) && (n <=? 57))%nat.

Fixpoint take_digits (s : string) : string :=
  match s with
  | String c s' => if is_digit c then String c (take_digits s') else EmptyString
  | EmptyString => EmptyString
  end.

Fixpoint drop_prefix (p s : string) : option string :=
  match p, s with
  | EmptyString, _ => Some s
  | String a p', String b s' =>
      if Ascii.eqb a b then drop_prefix p' s' else None
  | String _ _, EmptyString => None
  end.

Fixpoint search_zenodo (s : string) : option string :=
  match s with
  | EmptyString => None
  | String _ s' =>
      match drop_prefix "zenodo" s with
      | Some (String sep after) =>
          if Ascii.eqb sep (Ascii.ascii_of_nat 10) then search_zenodo s'
          else match take_digits after with
               | EmptyString => search_zenodo s'
               | digits => Some digits
               end
      | _ => search_zenodo s'
      end
  end.

(** [int(digits)] on a string of decimal digits. *)
Definition int_of_digits (s : string) : Z :=
  fold_left (fun acc c => 10 * acc + (Z.of_nat (Ascii.nat_of_ascii c) - 48))
            (list_ascii_of_string s) 0.

Module ZenodoFetcher.

Definition TOKEN (b : backend) : string :=
  match b with
  | sandbox => "qyPC29wGPaflUUVAv1oGw99ytwBqwEEdwi4NuUrpwc3xUcEwbmuB4emwysco"
  | production => "KXcG5s9TqeuPh1Ukt5QYbzhCElp9LxuqAuiwdqHP0WS4qGIQiydHn6FBtdJ5"
  end.

Definition DOI (b : backend) : gmap string string :=
  match b with
  | sandbox =>
      list_to_map
        [("censusdp1tract", "10.5072/zenodo.674992");
         ("eia860", "10.5072/zenodo.672210");
         ("eia860m", "10.5072/zenodo.692655");
         ("eia861", "10.5072/zenodo.687052");
         ("eia923", "10.5072/zenodo.687071");
         ("epacems", "10.5072/zenodo.672963");
         ("ferc1", "10.5072/zenodo.687072");
         ("ferc714", "10.5072/zenodo.672224")]
  | production =>
      list_to_map
        [("censusdp1tract", "10.5281/zenodo.4127049");
         ("eia860", "10.5281/zenodo.4127027");
         ("eia860m", "10.5281/zenodo.4540268");
         ("eia861", "10.5281/zenodo.4127029");
         ("eia923", "10.5281/zenodo.4127040");
         ("epacems", "10.5281/zenodo.4660268");
         ("ferc1", "10.5281/zenodo.4127044");
         ("ferc714", "10.5281/zenodo.4127101")]
  end.

Definition API_ROOT (b : backend) : string :=
  match b with
  | sandbox => "https://sandbox.zenodo.org/api"
  | production => "https://zenodo.org/api"
  end.

Record t : Type := mk {
  _api_root : string;
  _token : string;
  _dataset_to_doi : gmap string string;
  _descriptor_cache : gmap string DatapackageDescriptor.t;
  http : Session.t
}.

Definition retries : Retry.t := Retry.mk 3 [429; 500; 502; 503; 504] 2 0.

Definition __init__ (use_sandbox : bool) : t :=
  let backend := if use_sandbox then sandbox else production in
  let adapter := retries in
  mk (API_ROOT backend) (TOKEN backend) (DOI backend) ∅
     (Session.mount "https://" adapter
        (Session.mount "http://" adapter Session.new)).

Definition set_descriptor (doi : string) (d : DatapackageDescriptor.t)
    (self : t) : t :=
  mk (_api_root self) (_token self) (_dataset_to_doi self)
     (<[doi := d]> (_descriptor_cache self)) (http self).

Definition _doi_to_url (self : t) (doi : string) : result string :=
  match search_zenodo doi with
  | None => Raise (ValueError ("Invalid doi " +:+ doi))
  | Some digits =>
      let zen_id := int_of_digits digits in
      Return (_api_root self +:+ "/deposit/depositions/" +:+ pretty zen_id)
  end.

Definition get_doi (self : t) (dataset : string) : result string :=
  match _dataset_to_doi self !! dataset with
  | Some doi => Return doi
  | None => Raise (KeyError dataset)
  end.

Definition get_resource_key (self : t) (dataset name : string)
    : result PudlResourceKey.t :=
  match get_doi self dataset with
  | Return doi => Return (PudlResourceKey.mk dataset doi name)
  | Raise e => Raise e
  end.

Section WithExternals.
Context `{Externals}.

(** [self.timeout] bounds each attempt: an attempt that runs out of time
    is a [ConnectionFailed] outcome of the server. *)
Definition _fetch_from_url (self : t) (url : string) : M Net Response :=
  response <- Session.get (http self) url [("access_token", _token self)] ;;
  if status_code response =? 200 then ret response
  else raise (ValueError ("Could not download " +:+ url +:+ ": "
                          +:+ text response)).

(** The methods below also update [self._descriptor_cache]: their
    state is the fetcher together with the network. *)
Definition on_net {A} (f : t -> M Net A) : M (t * Net) A :=
  fun s => let '(n, r) := f s.1 s.2 in ((s.1, n), r).

Definition get_self : M (t * Net) t := gets fst.

(** The [for ... else] of [get_descriptor]: [Some] is the [break]. *)
Fixpoint find_datapackage (files : list ZenodoFile) : option ZenodoFile :=
  match files with
  | [] => None
  | f :: rest =>
      if String.eqb (filename f) "datapackage.json" then Some f
      else find_datapackage rest
  end.

Definition get_descriptor (dataset : string)
    : M (t * Net) DatapackageDescriptor.t :=
  self <- get_self ;;
  match _dataset_to_doi self !! dataset with
  | None => raise (KeyError ("No doi found for dataset " +:+ dataset))
  | Some doi =>
      if negb (truthy (PyStr doi)) then
        raise (KeyError ("No doi found for dataset " +:+ dataset))
      else
        match _descriptor_cache self !! doi with
        | Some d => ret d
        | None =>
            u <- lift (_doi_to_url self doi) ;;
            dpkg <- on_net (fun self => _fetch_from_url self u) ;;
            files <- lift (json_files (content dpkg)) ;;
            match find_datapackage files with
            | None =>
                raise (RuntimeError
                         ("Zenodo datapackage for " +:+ dataset +:+ "/"
                          +:+ doi
                          +:+ " does not contain valid datapackage.json"))
            | Some f =>
                resp <- on_net (fun self =>
                          _fetch_from_url self (links_download f)) ;;
                dp <- lift (json_datapackage (content resp)) ;;
                d <- lift (DatapackageDescriptor.__init__ dp dataset doi) ;;
                modify (fun s => (set_descriptor doi d s.1, s.2)) ;;;
                ret d
            end
        end
  end.

(** [get_resource]: the descriptor gives the URL and, after the
    download, judges the content. *)
Definition get_resource (res : PudlResourceKey.t) : M (t * Net) string :=
  desc <- get_descriptor (PudlResourceKey.dataset res) ;;
  url <- lift (DatapackageDescriptor.get_resource_path desc
                 (PudlResourceKey.name res)) ;;
  response <- on_net (fun self => _fetch_from_url self (str (of_opt url))) ;;
  let content := content response in
  lift (DatapackageDescriptor.validate_checksum desc
          (PudlResourceKey.name res) content) ;;;
  ret content.
(** [sorted(self._dataset_to_doi)]: the keys of the table, in the order
    of strings. *)
Definition get_known_datasets (self : t) : list string :=
  merge_sort (fun a b => Is_true (String.leb a b))
             (map_to_list (_dataset_to_doi self)).*1.

End WithExternals.

End ZenodoFetcher.

(** ** pudl.workspace.resource_cache

    The datastore talks to its cache through five methods.  [contains]
    and [is_optimally_cached] are queries; [get], [add] and [delete] may
    change the cache and may raise. *)

Module resource_cache.

Class AbstractCache (C : Type) : Type := {
  contains : C -> PudlResourceKey.t -> bool;
  is_optimally_cached : C -> PudlResourceKey.t -> bool;
  get : PudlResourceKey.t -> M C string;
  add : PudlResourceKey.t -> string -> M C unit;
  delete : PudlResourceKey.t -> M C unit
}.

(** Modelled from the spec: [LayeredCache], whose source file
    [resource_cache.py] is not part of the sources at hand.  An ordered
    list of layers, highest priority first, each a map from keys to
    contents.  [contains] holds if any layer has the key; [get] returns
    the first hit and backfills the layers before it; [add] writes to
    every layer; [delete] removes from every layer;
    [is_optimally_cached] looks at the first layer only.  With no layer
    every operation degrades to absent. *)
Definition layer : Type := gmap PudlResourceKey.t string.
Definition LayeredCache : Type := list layer.

Definition layer_contains (l : layer) (k : PudlResourceKey.t) : bool :=
  bool_decide (is_Some (l !! k)).

Fixpoint layered_find (c : LayeredCache) (k : PudlResourceKey.t)
    : option (nat * string) :=
  match c with
  | [] => None
  | l :: rest =>
      match l !! k with
      | Some v => Some (O, v)
      | None => match layered_find rest k with
                | Some (i, v) => Some (S i, v)
                | None => None
                end
      end
  end.

Definition backfill (i : nat) (k : PudlResourceKey.t) (v : string)
    (c : LayeredCache) : LayeredCache :=
  (((fun l : layer => <[k := v]> l) <$> take i c) ++ drop i c)%list.

Definition layered_get (k : PudlResourceKey.t) : M LayeredCache string :=
  fun c => match layered_find c k with
           | Some (i, v) => (backfill i k v c, Return v)
           | None => (c, Raise (KeyError (PudlResourceKey.name k)))
           end.

#[global] Instance layered_cache : AbstractCache LayeredCache := {|
  contains c k := existsb (fun l => layer_contains l k) c;
  is_optimally_cached c k :=
    match c with
    | [] => false
    | l :: _ => layer_contains l k
    end;
  get := layered_get;
  add k v := modify (fmap (fun l : layer => <[k := v]> l));
  delete k := modify (fmap (fun l : layer => base.delete k l))
|}.

End resource_cache.

(** ** Datastore *)

Module Datastore.
Import resource_cache.

Record t (C : Type) : Type := mk {
  _cache : C;
  _datapackage_descriptors : gmap string DatapackageDescriptor.t;
  _zenodo_fetcher : ZenodoFetcher.t
}.
Arguments mk {C}.
Arguments _cache {C}.
Arguments _datapackage_descriptors {C}.
Arguments _zenodo_fetcher {C}.

Section Methods.
Context `{Externals} {C : Type} `{!AbstractCache C}.

Abbreviation state := (t C * Net)%type.

(** Calls into the two collaborators: each sees its own object only. *)
Definition on_cache {A} (m : M C A) : M state A :=
  fun s => let '(c, r) := m (_cache s.1) in
           ((mk c (_datapackage_descriptors s.1) (_zenodo_fetcher s.1), s.2), r).

Definition on_fetcher {A} (m : M (ZenodoFetcher.t * Net) A) : M state A :=
  fun s => let '((zf, n), r) := m (_zenodo_fetcher s.1, s.2) in
           ((mk (_cache s.1) (_datapackage_descriptors s.1) zf, n), r).

Definition set_datapackage_descriptor (doi : string)
    (d : DatapackageDescriptor.t) : M state unit :=
  modify (fun s => (mk (_cache s.1)
                       (<[doi := d]> (_datapackage_descriptors s.1))
                       (_zenodo_fetcher s.1), s.2)).

Definition get_datapackage_descriptor (dataset : string)
    : M state DatapackageDescriptor.t :=
  self <- gets fst ;;
  doi <- lift (ZenodoFetcher.get_doi (_zenodo_fetcher self) dataset) ;;
  match _datapackage_descriptors self !! doi with
  | Some d => ret d
  | None =>
      let res := PudlResourceKey.mk dataset doi "datapackage.json" in
      if contains (_cache self) res then
        b <- on_cache (get res) ;;
        dp <- lift (json_datapackage b) ;;
        d <- lift (DatapackageDescriptor.__init__ dp dataset doi) ;;
        set_datapackage_descriptor doi d ;;;
        ret d
      else
        desc <- on_fetcher (ZenodoFetcher.get_descriptor dataset) ;;
        set_datapackage_descriptor doi desc ;;;
        on_cache (add res (DatapackageDescriptor.get_json_string desc)) ;;;
        ret desc
  end.

(** One turn of the [for] loop of [get_resources]: [Some] is what the
    turn yields, [None] a turn that yields nothing. *)
Definition get_resources_turn (cached_only skip_optimally_cached : bool)
    (res : PudlResourceKey.t)
    : M state (option (PudlResourceKey.t * string)) :=
  self <- gets fst ;;
  if is_optimally_cached (_cache self) res && skip_optimally_cached then
    ret None
  else if contains (_cache self) res then
    v <- on_cache (get res) ;;
    ret (Some (res, v))
  else if negb cached_only then
    contents <- on_fetcher (ZenodoFetcher.get_resource res) ;;
    on_cache (add res contents) ;;;
    ret (Some (res, contents))
  else ret None.

(** The generator run to its end: all it yields, or what it raises. *)
Fixpoint get_resources_loop (cached_only skip_optimally_cached : bool)
    (keys : list PudlResourceKey.t)
    : M state (list (PudlResourceKey.t * string)) :=
  match keys with
  | [] => ret []
  | res :: rest =>
      y <- get_resources_turn cached_only skip_optimally_cached res ;;
      ys <- get_resources_loop cached_only skip_optimally_cached rest ;;
      ret (match y with Some x => x :: ys | None => ys end)
  end.

(** The keyword arguments are handed on to the descriptor, where a
    filter called [name] binds the parameter of that name. *)
Definition get_resources (dataset : string)
    (cached_only skip_optimally_cached : bool)
    (filters : gmap string pyval)
    : M state (list (PudlResourceKey.t * string)) :=
  desc <- get_datapackage_descriptor dataset ;;
  get_resources_loop cached_only skip_optimally_cached
    (DatapackageDescriptor.get_resources desc
       (default PyNone (filters !! "name")) (base.delete "name" filters)).

Definition remove_from_cache (res : PudlResourceKey.t) : M state unit :=
  on_cache (delete res).

(** One [next()] on the generator of [get_resources], past its first
    line: the turns up to the first that yields.  [Some] is the pair
    yielded, with the keys still to come; [None] is [StopIteration]. *)
Fixpoint get_resources_next (cached_only skip_optimally_cached : bool)
    (keys : list PudlResourceKey.t)
    : M state (option ((PudlResourceKey.t * string) * list PudlResourceKey.t)) :=
  match keys with
  | [] => ret None
  | res :: rest =>
      y <- get_resources_turn cached_only skip_optimally_cached res ;;
      match y with
      | Some x => ret (Some (x, rest))
      | None => get_resources_next cached_only skip_optimally_cached rest
      end
  end.

(** [get_unique_resource]: the generator is asked twice.  The keyword
    arguments go to [get_resources], where [cached_only] and
    [skip_optimally_cached] bind the parameters of these names, taken by
    their truth value.  [repr] is the text of a dict in a message. *)
Definition get_unique_resource (repr : gmap string pyval -> string)
    (dataset : string) (filters : gmap string pyval) : M state string :=
  let cached_only := truthy (default (PyBool false) (filters !! "cached_only")) in
  let skip_optimally_cached :=
    truthy (default (PyBool false) (filters !! "skip_optimally_cached")) in
  let filters' :=
    base.delete "cached_only" (base.delete "skip_optimally_cached" filters) in
  desc <- get_datapackage_descriptor dataset ;;
  let keys := DatapackageDescriptor.get_resources desc
                (default PyNone (filters' !! "name"))
                (base.delete "name" filters') in
  first <- get_resources_next cached_only skip_optimally_cached keys ;;
  match first with
  | None =>
      raise (KeyError ("No resources found for " +:+ dataset +:+ ": "
                       +:+ repr filters))
  | Some ((_, content), rest) =>
      second <- get_resources_next cached_only skip_optimally_cached rest ;;
      match second with
      | None => ret content
      | Some _ =>
          raise (KeyError ("Multiple resources found for " +:+ dataset +:+ ": "
                           +:+ repr filters))
      end
  end.
End Methods.

End Datastore.

(** ** A scripted server

    The server answers from a list of outcomes, one per attempt, and
    fails to connect once the list is used up.  Nothing it sends is
    JSON. *)

Definition scripted : Externals := {|
  Remote := list Outcome;
  serve := fun r _ => match r with
                      | [] => (ConnectionFailed, [])
                      | o :: r' => (o, r')
                      end;
  json_files := fun _ => Raise JSONDecodeError;
  json_datapackage := fun _ => Raise JSONDecodeError;
  json_dumps := fun _ => "";
  datapackage_errors := fun _ => []
|}.

Definition answer (status : Z) (body : string) : Outcome :=
  Responded {| status_code := status; content := body; text := body |}.

(** ** Vocabulary of the properties *)

(** What [_matches] decides, one filter entry at a time. *)
Definition matches_entry (res : Resource) (f : string) (v : pyval) : Prop :=
  str (DatapackageDescriptor.parts_get (default ∅ (r_parts res)) f) = str v.

#[global] Instance matches_entry_dec res f v : Decision (matches_entry res f v).
Proof. unfold matches_entry. apply _. Defined.

Definition checksum_mismatch (name expected got : string) : exn :=
  ChecksumMismatch ("Checksum for resource " +:+ name +:+ " does not match."
                    +:+ "Expected " +:+ expected +:+ ", got " +:+ got).




(** The number of attempts put on the wire. *)
Fixpoint attempts (tr : list event) : nat :=
  match tr with
  | [] => O
  | Sent _ :: tr' => S (attempts tr')
  | Slept _ :: tr' => attempts tr'
  end.

Section Serving.
Context `{Externals}.


Definition after (n : Net) (srv' : Remote) (tr : list event) : Net :=
  {| server := srv'; trace := (trace n ++ tr)%list |}.
End Serving.




Definition script (os : list Outcome) : @Net scripted :=
  @Build_Net scripted os [].

(** ** A small archive

    One dataset of the production backend with a single yearly file; the
    recorded checksum is the MD5 of the three bytes "abc". *)

Definition eia860_doi : string := "10.5281/zenodo.4127027".

Definition eia860_2019 : Resource := {|
  r_name := "eia860-2019.zip";
  r_path := Some "https://zenodo.org/api/files/eia860-2019.zip";
  r_remote_url := None;
  r_hash := Some "900150983cd24fb0d6963f7d28e17f72";
  r_parts := Some {[ "year" := PyInt 2019 ]}
|}.

Definition eia860_descriptor : DatapackageDescriptor.t :=
  DatapackageDescriptor.mk {| resources := [eia860_2019] |} "eia860" eia860_doi.

Definition eia860_key : PudlResourceKey.t :=
  PudlResourceKey.mk "eia860" eia860_doi "eia860-2019.zip".

(** A fetcher that already holds the descriptor, and a datastore with two
    empty cache layers around it. *)
Definition eia860_fetcher : ZenodoFetcher.t :=
  ZenodoFetcher.set_descriptor eia860_doi eia860_descriptor
    (ZenodoFetcher.__init__ false).

Definition eia860_store : Datastore.t resource_cache.LayeredCache :=
  Datastore.mk [∅; ∅] ∅ eia860_fetcher.

(** ** Vocabulary of the further properties *)

(** A character of a lower-case hexadecimal number. *)
Definition is_lower_hex (c : Ascii.ascii) : bool :=
  let n := Ascii.nat_of_ascii c in
  (((48 <=? n) && (n <=? 57)) || ((97 <=? n) && (n <=? 102)))%nat.

Fixpoint all_chars (p : Ascii.ascii -> bool) (s : string) : bool :=
  match s with
  | EmptyString => true
  | String c s' => p c && all_chars p s'
  end.

(** The form of an MD5 hex digest: 32 lower-case hexadecimal digits. *)
Definition is_hex_digest (s : string) : bool :=
  (String.length s =? 32)%nat && all_chars is_lower_hex s.


(** The requests of a trace. *)
Fixpoint requests_of (tr : list event) : list Request :=
  match tr with
  | [] => []
  | Sent rq :: tr' => rq :: requests_of tr'
  | Slept _ :: tr' => requests_of tr'
  end.

(** ** A scripted server that speaks JSON

    As [scripted], with a decoder that knows two bodies: the deposition
    that lists a [datapackage.json], and the datapackage of the small
    archive. *)

Definition scripted_archive : Externals := {|
  Remote := list Outcome;
  serve := fun r _ => match r with
                      | [] => (ConnectionFailed, [])
                      | o :: r' => (o, r')
                      end;
  json_files := fun b =>
    if String.eqb b "deposition" then
      Return [ {| filename := "README.md";
                  links_download := "https://zenodo.org/api/files/README.md" |};
               {| filename := "datapackage.json";
                  links_download := "https://zenodo.org/api/files/datapackage.json" |} ]
    else Raise JSONDecodeError;
  json_datapackage := fun b =>
    if String.eqb b "datapackage" then Return {| resources := [eia860_2019] |}
    else Raise JSONDecodeError;
  json_dumps := fun _ => "datapackage";
  datapackage_errors := fun _ => []
|}.

Definition archive_script (os : list Outcome) : @Net scripted_archive :=
  @Build_Net scripted_archive os [].

(** ** A dataset of three files

    Three state files of one dataset, none with a recorded location that
    answers, two of them in the cache of [epacems_store]. *)

Definition epacems_doi : string := "10.5281/zenodo.4660268".

Definition epacems_file (state : string) : Resource := {|
  r_name := "epacems-" +:+ state +:+ ".zip";
  r_path := Some ("https://zenodo.org/api/files/epacems-" +:+ state +:+ ".zip");
  r_remote_url := None;
  r_hash := Some "900150983cd24fb0d6963f7d28e17f72";
  r_parts := Some {[ "state" := PyStr state; "year" := PyInt 2019 ]}
|}.

Definition epacems_descriptor : DatapackageDescriptor.t :=
  DatapackageDescriptor.mk
    {| resources := [epacems_file "co"; epacems_file "id"; epacems_file "wy"] |}
    "epacems" epacems_doi.

Definition epacems_key (state : string) : PudlResourceKey.t :=
  PudlResourceKey.mk "epacems" epacems_doi ("epacems-" +:+ state +:+ ".zip").

Definition epacems_store : Datastore.t resource_cache.LayeredCache :=
  Datastore.mk
    [ {[ epacems_key "co" := "abc" ]} ∪ {[ epacems_key "id" := "abc" ]} ]
    {[ epacems_doi := epacems_descriptor ]}
    (ZenodoFetcher.__init__ false).

(** ** ParseKeyValues *)

Module ParseKeyValues.
Import Stdlib.Strings.Ascii.

(** [s.split(sep)] for a separator of one character: the piece before
    the first separator and the pieces after it.  There is always a
    first piece. *)
Fixpoint split (sep : Ascii.ascii) (s : string) : string * list string :=
  match s with
  | EmptyString => (EmptyString, [])
  | String c s' =>
      let '(piece, pieces) := split sep s' in
      if Ascii.eqb c sep then (EmptyString, piece :: pieces)
      else (String c piece, pieces)
  end.

(** [k, v = kv.split('=')] *)
Definition unpack (parts : string * list string) : result (string * string) :=
  match parts with
  | (k, [v]) => Return (k, v)
  | (_, []) =>
      Raise (ValueError "not enough values to unpack (expected 2, got 1)")
  | (_, _ :: _ :: _) =>
      Raise (ValueError "too many values to unpack (expected 2)")
  end.

(** The inner [for]: every piece binds [k] and [v] anew.  [kv] is their
    binding so far, the result their binding when the loop is over. *)
Fixpoint for_kv (kv : string * string) (pieces : list string)
    : result (string * string) :=
  match pieces with
  | [] => Return kv
  | piece :: rest =>
      match unpack (split "="%char piece) with
      | Return kv' => for_kv kv' rest
      | Raise e => Raise e
      end
  end.

(** The outer [for], on the dict [d]: the assignment [d[k] = v] stands
    after the inner loop. *)
Fixpoint for_val (values : list string) : M (gmap string string) unit :=
  match values with
  | [] => ret tt
  | val :: rest =>
      let '(piece, pieces) := split ","%char val in
      kv <- lift (match unpack (split "="%char piece) with
                  | Return kv => for_kv kv pieces
                  | Raise e => Raise e
                  end) ;;
      modify (<[kv.1 := kv.2]>) ;;;
      for_val rest
  end.

(** What argparse hands over: one string, or a list of them. *)
Inductive values : Type :=
  | Str (s : string)
  | Strs (l : list string).

(** The state is the attribute [dest] of the namespace, [None] while the
    namespace has no such attribute.  The dict found there is updated in
    place; a dict made for the occasion is lost when the loop raises. *)
Definition __call__ (vals : values) : M (option (gmap string string)) unit :=
  fun namespace =>
    let d := default ∅ namespace in
    let vals := match vals with Str s => [s] | Strs l => l end in
    match for_val vals d with
    | (d', Return _) => (Some d', Return tt)
    | (d', Raise e) => (match namespace with
                        | Some _ => Some d'
                        | None => None
                        end, Raise e)
    end.

(** [sep.join(pieces)] *)
Fixpoint join (sep : string) (pieces : list string) : string :=
  match pieces with
  | [] => EmptyString
  | [piece] => piece
  | piece :: rest => piece +:+ sep +:+ join sep rest
  end.

(** How often a character occurs in a string. *)
Fixpoint occurrences (c : Ascii.ascii) (s : string) : nat :=
  match s with
  | EmptyString => 0
  | String c' s' => (if Ascii.eqb c' c then 1 else 0) + occurrences c s'
  end.

(** A pair as it is written on the command line, and a pair that can be
    written: neither side holds a comma or an equals sign. *)
Definition written (kv : string * string) : string := kv.1 +:+ "=" +:+ kv.2.

Definition writable (kv : string * string) : Prop :=
  (occurrences ","%char kv.1 = 0 /\ occurrences "="%char kv.1 = 0 /\
   occurrences ","%char kv.2 = 0 /\ occurrences "="%char kv.2 = 0)%nat.

End ParseKeyValues.



(** ** The commands of the script *)

(** How a command ends: it returns, or it raises.  [TypeError] is the
    error of a call that is given one argument twice. *)
Inductive outcome : Type :=
  | Done
  | Raised (e : exn)
  | TypeError.

(** The call [dstore.get_resources(single_ds, given=True, **partition)] as
    Python binds it: [cached_only], [skip_optimally_cached] and the
    filters.  A partition that names [given], or one of the two
    arguments given by position, is a [TypeError]: [None]. *)
Definition bind_get_resources (given : string) (partition : gmap string string)
    : option (bool * bool * gmap string pyval) :=
  if bool_decide (is_Some (partition !! given)
                  \/ is_Some (partition !! "self")
                  \/ is_Some (partition !! "dataset"))
  then None
  else
    let kwargs := <[given := PyBool true]> (PyStr <$> partition) in
    Some (truthy (default (PyBool false) (kwargs !! "cached_only")),
          truthy (default (PyBool false) (kwargs !! "skip_optimally_cached")),
          base.delete "cached_only"
            (base.delete "skip_optimally_cached" kwargs)).

Section Commands.
Context `{Externals} {C : Type} `{!resource_cache.AbstractCache C}.

(** The body of the inner [for] of [validate_cache], turn by turn of the
    generator: what a turn yields is validated before the next turn. *)
Fixpoint validate_loop (descriptor : DatapackageDescriptor.t)
    (cached_only skip_optimally_cached : bool) (keys : list PudlResourceKey.t)
    : M (Datastore.t C * Net) unit :=
  match keys with
  | [] => ret tt
  | key :: rest =>
      y <- Datastore.get_resources_turn cached_only skip_optimally_cached key ;;
      match y with
      | None => ret tt
      | Some (res, content) =>
          match DatapackageDescriptor.validate_checksum descriptor
                  (PudlResourceKey.name res) content with
          | Return _ => ret tt
          | Raise (ChecksumMismatch _) => Datastore.remove_from_cache res
          | Raise e => raise e
          end
      end ;;;
      validate_loop descriptor cached_only skip_optimally_cached rest
  end.

(** [validate_cache].  The generator is made by the call in the head of
    the inner [for], after the descriptor has been asked for; its first
    line asks for the descriptor again. *)
Fixpoint validate_cache (datasets : list string)
    (partition : gmap string string) (s : Datastore.t C * Net)
    : (Datastore.t C * Net) * outcome :=
  match datasets with
  | [] => (s, Done)
  | single_ds :: rest =>
      match Datastore.get_datapackage_descriptor single_ds s with
      | (s1, Raise e) => (s1, Raised e)
      | (s1, Return descriptor) =>
          match bind_get_resources "cached_only" partition with
          | None => (s1, TypeError)
          | Some (cached_only, skip_optimally_cached, filters) =>
              match (desc <- Datastore.get_datapackage_descriptor single_ds ;;
                     validate_loop descriptor cached_only skip_optimally_cached
                       (DatapackageDescriptor.get_resources desc
                          (default PyNone (filters !! "name"))
                          (base.delete "name" filters))) s1 with
              | (s2, Raise e) => (s2, Raised e)
              | (s2, Return _) => validate_cache rest partition s2
              end
          end
      end
  end.

(** [fetch_resources]: the generator of each dataset is run to its end. *)
Fixpoint fetch_resources (datasets : list string)
    (partition : gmap string string) (s : Datastore.t C * Net)
    : (Datastore.t C * Net) * outcome :=
  match datasets with
  | [] => (s, Done)
  | single_ds :: rest =>
      match bind_get_resources "skip_optimally_cached" partition with
      | None => (s, TypeError)
      | Some (cached_only, skip_optimally_cached, filters) =>
          match Datastore.get_resources single_ds cached_only
                  skip_optimally_cached filters s with
          | (s1, Raise e) => (s1, Raised e)
          | (s1, Return _) => fetch_resources rest partition s1
          end
      end
  end.
End Commands.

(** The datastore knows the descriptor of every dataset of a list. *)
Definition descriptors_known {C : Type} (datasets : list string)
    (dstore : Datastore.t C) : Prop :=
  forall dataset, dataset ∈ datasets ->
    exists doi desc,
      ZenodoFetcher.get_doi (Datastore._zenodo_fetcher dstore) dataset = Return doi
      /\ Datastore._datapackage_descriptors dstore !! doi = Some desc.

(** The content fails the checksum the descriptor records for the key. *)
Definition fails_checksum (descriptor : DatapackageDescriptor.t)
    (key : PudlResourceKey.t) (content : string) : bool :=
  match DatapackageDescriptor.validate_checksum descriptor
          (PudlResourceKey.name key) content with
  | Raise (ChecksumMismatch _) => true
  | _ => false
  end.

(** What a layered cache answers for a key. *)
Definition layered_peek (c : resource_cache.LayeredCache)
    (k : PudlResourceKey.t) : option string :=
  snd <$> resource_cache.layered_find c k.

(** The store of the three files with one of them damaged. *)
Definition epacems_damaged : Datastore.t resource_cache.LayeredCache :=
  Datastore.mk
    [ {[ epacems_key "co" := "abc" ]} ∪ {[ epacems_key "id" := "abd" ]} ]
    {[ epacems_doi := epacems_descriptor ]}
    (ZenodoFetcher.__init__ false).

(** * Properties *)

(** ** The digest, against known values *)

Example md5_empty :
  hashlib.md5_hexdigest "" = "d41d8cd98f00b204e9800998ecf8427e".
Proof. vm_compute. reflexivity. Qed.

Example md5_abc :
  hashlib.md5_hexdigest "abc" = "900150983cd24fb0d6963f7d28e17f72".
Proof. vm_compute. reflexivity. Qed.

(** Sixty-five bytes: the padding opens a second block. *)
Example md5_two_blocks :
  hashlib.md5_hexdigest
    (string_of_list_ascii (repeat (Ascii.ascii_of_nat 97) 65))
  = "c743a45e0d2e6a95cb859adae0248435".
Proof. vm_compute. reflexivity. Qed.

(** ** Partition filters *)

Section Matching.
Import DatapackageDescriptor.

Lemma _matches_spec res filters :
  _matches res filters = true <-> map_Forall (matches_entry res) filters.
Proof.
  unfold _matches, matches_entry. rewrite forallb_forall. split.
  - intros Hall f v Hf.
    specialize (Hall (f, v)). simpl in Hall.
    apply String.eqb_eq, Hall, list_elem_of_In.
    by apply elem_of_map_to_list.
  - intros Hall [f v] Hin. simpl.
    apply String.eqb_eq, Hall.
    by apply elem_of_map_to_list, list_elem_of_In.
Qed.

Lemma _matches_decide res filters :
  _matches res filters = bool_decide (map_Forall (matches_entry res) filters).
Proof.
  apply Bool.eq_iff_eq_true.
  rewrite _matches_spec, bool_decide_eq_true. reflexivity.
Qed.

(** Without a name the loop is a filter on the resource list. *)
Lemma get_resources_loop_unnamed self rs filters :
  get_resources_loop self rs PyNone filters =
  key_of self <$> filter (fun res => map_Forall (matches_entry res) filters) rs.
Proof.
  induction rs as [|res rest IH]; [reflexivity|].
  cbn [get_resources_loop truthy andb]. rewrite IH, _matches_decide.
  rewrite filter_cons. destruct (decide _) as [Hm|Hm].
  - by rewrite bool_decide_eq_true_2.
  - by rewrite bool_decide_eq_false_2.
Qed.


End Matching.


(** The corner the coercion leaves: a filter whose string form is "None"
    is met by every resource that lacks the partition key. *)
Remark absent_part_reads_as_None self res f :
  default ∅ (r_parts res) !! f = None ->
  DatapackageDescriptor.get_resources_loop self [res] PyNone {[ f := PyStr "None" ]}
  = [DatapackageDescriptor.key_of self res].
Proof.
  intros Hf. rewrite get_resources_loop_unnamed.
  rewrite filter_cons, decide_True; [reflexivity|].
  apply map_Forall_singleton. unfold matches_entry, DatapackageDescriptor.parts_get.
  by rewrite Hf.
Qed.

(** ** The attempt loop *)

Section UrlopenFacts.
Context `{Externals}.










End UrlopenFacts.

(** ** The fetcher's requests *)

Section FetchFacts.
Context `{Externals}.







End FetchFacts.




(** ** Checksum validation and the cache *)

Section ChecksumFacts.
Context `{Externals}.
Import DatapackageDescriptor hashlib.

Lemma validate_checksum_Return desc name content :
  validate_checksum desc name content = Return tt <->
  exists meta, _get_resource_metadata desc name = Return meta /\
               r_hash meta = Some (md5_hexdigest content).
Proof.
  unfold validate_checksum.
  destruct (_get_resource_metadata desc name) as [meta|e].
  - destruct (r_hash meta) as [expected|] eqn:Hh.
    + destruct (String.eqb_spec (md5_hexdigest content) expected) as [<-|Hne];
        cbn.
      * split; [eauto | done].
      * split; [discriminate|].
        intros (? & [= <-] & Heq). rewrite Hh in Heq.
        injection Heq as ->. by destruct Hne.
    + split; [discriminate|]. intros (? & [= <-] & Heq). congruence.
  - split; [discriminate|]. by intros (? & ? & ?).
Qed.

Lemma validate_checksum_mismatch desc name content meta expected :
  _get_resource_metadata desc name = Return meta ->
  r_hash meta = Some expected ->
  md5_hexdigest content <> expected ->
  validate_checksum desc name content =
  Raise (checksum_mismatch name expected (md5_hexdigest content)).
Proof.
  intros Hm Hh Hne. unfold validate_checksum. rewrite Hm, Hh.
  apply String.eqb_neq in Hne. by rewrite Hne.
Qed.

(** [get_resource], step by step. *)
Lemma get_resource_eq res s :
  ZenodoFetcher.get_resource res s =
  match ZenodoFetcher.get_descriptor (PudlResourceKey.dataset res) s with
  | (s1, Raise e) => (s1, Raise e)
  | (s1, Return desc) =>
      match get_resource_path desc (PudlResourceKey.name res) with
      | Raise e => (s1, Raise e)
      | Return u =>
          match ZenodoFetcher._fetch_from_url s1.1 (str (of_opt u)) s1.2 with
          | (n2, Raise e) => ((s1.1, n2), Raise e)
          | (n2, Return resp) =>
              match validate_checksum desc (PudlResourceKey.name res)
                      (content resp) with
              | Raise e => ((s1.1, n2), Raise e)
              | Return _ => ((s1.1, n2), Return (content resp))
              end
          end
      end
  end.
Proof.
  unfold ZenodoFetcher.get_resource, bind, lift, ZenodoFetcher.on_net, ret.
  destruct (ZenodoFetcher.get_descriptor _ s) as [s1 [desc|e]]; [|reflexivity].
  destruct (get_resource_path desc _) as [u|e]; [|reflexivity].
  cbn. destruct (ZenodoFetcher._fetch_from_url _ _ _) as [n2 [resp|e]];
    [|reflexivity].
  by destruct (validate_checksum desc _ _).
Qed.

(** What [get_resource] returns has passed the checksum. *)
Lemma get_resource_validated res s s' c :
  ZenodoFetcher.get_resource res s = (s', Return c) ->
  exists s1 desc meta,
    ZenodoFetcher.get_descriptor (PudlResourceKey.dataset res) s
      = (s1, Return desc) /\
    _get_resource_metadata desc (PudlResourceKey.name res) = Return meta /\
    r_hash meta = Some (md5_hexdigest c).
Proof.
  rewrite get_resource_eq.
  destruct (ZenodoFetcher.get_descriptor _ s) as [s1 [desc|e]]; [|discriminate].
  destruct (get_resource_path desc _) as [u|e]; [|discriminate].
  destruct (ZenodoFetcher._fetch_from_url _ _ _) as [n2 [resp|e]];
    [|discriminate].
  destruct (validate_checksum desc _ _) as [[]|e] eqn:Hv; [|discriminate].
  intros [= <- <-]. apply validate_checksum_Return in Hv as (meta & Hm & Hh).
  eauto 10.
Qed.
End ChecksumFacts.

Section TurnFacts.
Context `{Externals} {C : Type} `{!resource_cache.AbstractCache C}.
Import resource_cache Datastore.

(** The turn of a key that is neither skipped nor cached, with
    downloads allowed: the fetcher is asked, and the cache is written
    only with what the fetcher returns. *)
Lemma get_resources_turn_fetch cached_only skip res (ds : Datastore.t C) n :
  is_optimally_cached (_cache ds) res && skip = false ->
  contains (_cache ds) res = false ->
  cached_only = false ->
  get_resources_turn cached_only skip res (ds, n) =
  match ZenodoFetcher.get_resource res (_zenodo_fetcher ds, n) with
  | ((zf', n'), Raise e) =>
      ((mk (_cache ds) (_datapackage_descriptors ds) zf', n'), Raise e)
  | ((zf', n'), Return contents) =>
      match add res contents (_cache ds) with
      | (c', Return _) =>
          ((mk c' (_datapackage_descriptors ds) zf', n'),
           Return (Some (res, contents)))
      | (c', Raise e) =>
          ((mk c' (_datapackage_descriptors ds) zf', n'), Raise e)
      end
  end.
Proof.
  intros Hopt Hc ->.
  unfold get_resources_turn, bind, gets, on_fetcher, on_cache, ret. cbn.
  rewrite Hopt, Hc. cbn.
  destruct (ZenodoFetcher.get_resource res _) as [[zf' n'] [contents|e]];
    [|reflexivity].
  cbn. by destruct (add res contents (_cache ds)) as [c' [[]|e]].
Qed.

(** The loop stops at the first turn that raises. *)
Lemma get_resources_loop_raises cached_only skip pre res rest s0 s ys s' e :
  get_resources_loop cached_only skip pre s0 = (s, Return ys) ->
  get_resources_turn cached_only skip res s = (s', Raise e) ->
  get_resources_loop cached_only skip (pre ++ res :: rest) s0 = (s', Raise e).
Proof.
  revert s0 ys. induction pre as [|k pre IH]; intros s0 ys Hpre Hturn.
  - cbn in Hpre. injection Hpre as <- _.
    cbn [app get_resources_loop]. unfold bind. by rewrite Hturn.
  - cbn [app get_resources_loop] in *. unfold bind in *.
    destruct (get_resources_turn cached_only skip k s0) as [s1 [y|e1]];
      [|discriminate].
    destruct (get_resources_loop cached_only skip pre s1) as [s2 [ys'|e2]] eqn:Hl;
      [|discriminate].
    cbn in Hpre. injection Hpre as <- _.
    by rewrite (IH s1 ys' Hl Hturn).
Qed.
End TurnFacts.

(** C1.  Take any resource key for which the fetcher's descriptor records
    a checksum, and a remote fetch that returns bytes whose MD5 hex digest
    is not that checksum.  Then [ZenodoFetcher.get_resource] raises
    [ChecksumMismatch].  In [Datastore.get_resources] the turn of that
    key, when it comes to the download, raises the same exception and
    leaves the datastore with the cache it had, whatever the cache
    implementation: nothing is written for the key into any layer, and the
    generator ends there.  In general the turn of a key writes the cache
    only by adding what [get_resource] returned, and what it returns has
    the recorded checksum. *)
Theorem C1_checksum_mismatch_raises_and_caches_nothing
    `{Externals} {C : Type} `{!resource_cache.AbstractCache C}
    (ds : Datastore.t C) (n : Net) (res : PudlResourceKey.t)
    (zf1 : ZenodoFetcher.t) (n1 n2 : Net) (desc : DatapackageDescriptor.t)
    (meta : Resource) (expected : string) (resp : Response) :
  ZenodoFetcher.get_descriptor (PudlResourceKey.dataset res)
    (Datastore._zenodo_fetcher ds, n) = ((zf1, n1), Return desc) ->
  DatapackageDescriptor._get_resource_metadata desc (PudlResourceKey.name res)
    = Return meta ->
  r_hash meta = Some expected ->
  ZenodoFetcher._fetch_from_url zf1
    (str (of_opt (py_or (r_remote_url meta) (r_path meta)))) n1
    = (n2, Return resp) ->
  hashlib.md5_hexdigest (content resp) <> expected ->
  let e := checksum_mismatch (PudlResourceKey.name res) expected
             (hashlib.md5_hexdigest (content resp)) in
  let ds' := Datastore.mk (Datastore._cache ds)
               (Datastore._datapackage_descriptors ds) zf1 in
  ZenodoFetcher.get_resource res (Datastore._zenodo_fetcher ds, n)
    = ((zf1, n2), Raise e)
  /\ (forall cached_only skip_optimally_cached,
        resource_cache.is_optimally_cached (Datastore._cache ds) res
          && skip_optimally_cached = false ->
        resource_cache.contains (Datastore._cache ds) res = false ->
        cached_only = false ->
        Datastore.get_resources_turn cached_only skip_optimally_cached res (ds, n)
          = ((ds', n2), Raise e)
        /\ forall pre rest s0 ys,
             Datastore.get_resources_loop cached_only skip_optimally_cached
               pre s0 = ((ds, n), Return ys) ->
             Datastore.get_resources_loop cached_only skip_optimally_cached
               (pre ++ res :: rest) s0 = ((ds', n2), Raise e))
  /\ (forall (ds0 ds1 : Datastore.t C) n0 n1' k cached_only skip_optimally_cached r,
        resource_cache.is_optimally_cached (Datastore._cache ds0) k
          && skip_optimally_cached = false ->
        resource_cache.contains (Datastore._cache ds0) k = false ->
        cached_only = false ->
        Datastore.get_resources_turn cached_only skip_optimally_cached k (ds0, n0)
          = ((ds1, n1'), r) ->
        match ZenodoFetcher.get_resource k (Datastore._zenodo_fetcher ds0, n0) with
        | (_, Raise _) => Datastore._cache ds1 = Datastore._cache ds0
        | (_, Return contents) =>
            Datastore._cache ds1
              = (resource_cache.add k contents (Datastore._cache ds0)).1
            /\ exists s1 desc0 meta0,
                 ZenodoFetcher.get_descriptor (PudlResourceKey.dataset k)
                   (Datastore._zenodo_fetcher ds0, n0) = (s1, Return desc0) /\
                 DatapackageDescriptor._get_resource_metadata desc0
                   (PudlResourceKey.name k) = Return meta0 /\
                 r_hash meta0 = Some (hashlib.md5_hexdigest contents)
        end).
Proof.
  intros Hdesc Hmeta Hhash Hfetch Hne e ds'.
  assert (Hraise : ZenodoFetcher.get_resource res (Datastore._zenodo_fetcher ds, n)
                   = ((zf1, n2), Raise e)).
  { rewrite get_resource_eq, Hdesc.
    unfold DatapackageDescriptor.get_resource_path. rewrite Hmeta.
    cbn [fst snd]. rewrite Hfetch.
    by rewrite (validate_checksum_mismatch _ _ _ _ _ Hmeta Hhash Hne). }
  split; [exact Hraise|]. split.
  - intros cached_only skip Hopt Hc Hco.
    assert (Hturn : Datastore.get_resources_turn cached_only skip res (ds, n)
                    = ((ds', n2), Raise e)).
    { by rewrite get_resources_turn_fetch, Hraise. }
    split; [exact Hturn|].
    intros pre rest s0 ys Hpre.
    exact (get_resources_loop_raises _ _ _ _ _ _ _ _ _ _ Hpre Hturn).
  - intros ds0 ds1 n0 n1' k cached_only skip r Hopt Hc Hco.
    rewrite get_resources_turn_fetch by done.
    destruct (ZenodoFetcher.get_resource k _) as [[zf' n'] [contents|e']] eqn:Hget.
    + apply get_resource_validated in Hget.
      destruct (resource_cache.add k contents _) as [c' [[]|e']];
        intros [= <- _ _]; cbn; eauto.
    + by intros [= <- _ _].
Qed.

(** The scenario of C1 on the scripted server: the archive records the
    checksum of "abc" and the download delivers "abd". *)
Lemma C1_witness_corrupted_download :
  let n := script [answer 200 "abd"] in
  let n2 := after n [] [Sent {| url := "https://zenodo.org/api/files/eia860-2019.zip";
                               params := [("access_token",
                                           ZenodoFetcher._token eia860_fetcher)] |}] in
  let e := checksum_mismatch "eia860-2019.zip" "900150983cd24fb0d6963f7d28e17f72"
             (hashlib.md5_hexdigest "abd") in
  hashlib.md5_hexdigest "abd" <> "900150983cd24fb0d6963f7d28e17f72"
  /\ ZenodoFetcher.get_resource eia860_key (eia860_fetcher, n)
     = ((eia860_fetcher, n2), Raise e)
  /\ Datastore.get_resources_turn false true eia860_key (eia860_store, n)
     = ((eia860_store, n2), Raise e).
Proof.
  intros n n2 e.
  assert (Hne : hashlib.md5_hexdigest "abd" <> "900150983cd24fb0d6963f7d28e17f72")
    by (vm_compute; discriminate).
  split; [exact Hne|].
  pose proof (C1_checksum_mismatch_raises_and_caches_nothing
                (H := scripted) eia860_store n eia860_key
                eia860_fetcher n n2 eia860_descriptor eia860_2019
                "900150983cd24fb0d6963f7d28e17f72"
                {| status_code := 200; content := "abd"; text := "abd" |}
                eq_refl eq_refl eq_refl eq_refl Hne) as (Hraise & Hturn & _).
  split; [exact Hraise|].
  exact (proj1 (Hturn false true eq_refl eq_refl eq_refl)).
Defined.

(** ** The whole generator on the small archive *)

(** The datastore knows the descriptor already; its two cache layers are
    empty, and stay so when the download is corrupted. *)
Example corrupted_download_leaves_the_layers_empty :
  let store :=
    Datastore.mk (C := resource_cache.LayeredCache) [∅; ∅]
      {[ eia860_doi := eia860_descriptor ]} eia860_fetcher in
  let run := Datastore.get_resources "eia860" false true ∅
               (store, script [answer 200 "abd"]) in
  run.2 = Raise (checksum_mismatch "eia860-2019.zip"
                   "900150983cd24fb0d6963f7d28e17f72"
                   "4911e516e5aa21d327512e0c8b197616")
  /\ map_to_list <$> Datastore._cache run.1.1 = [[]; []].
Proof. vm_compute. split; reflexivity. Qed.

(** The same request when the download is sound: the content is yielded
    and written to both layers. *)
Example sound_download_is_cached :
  let store :=
    Datastore.mk (C := resource_cache.LayeredCache) [∅; ∅]
      {[ eia860_doi := eia860_descriptor ]} eia860_fetcher in
  let run := Datastore.get_resources "eia860" false true ∅
               (store, script [answer 200 "abc"]) in
  run.2 = Return [(eia860_key, "abc")]
  /\ map_to_list <$> Datastore._cache run.1.1
     = [[(eia860_key, "abc")]; [(eia860_key, "abc")]].
Proof. vm_compute. split; reflexivity. Qed.

(** * Further properties of the module *)

(** ** The descriptor's queries *)

Section DescriptorFacts.
Import DatapackageDescriptor.

Lemma get_resources_loop_named self rs nm filters :
  nm <> "" ->
  get_resources_loop self rs (PyStr nm) filters =
  filter (fun k => PudlResourceKey.name k = nm)
         (get_resources_loop self rs PyNone filters).
Proof.
  intros Hnm. induction rs as [|res rest IH]; [reflexivity|].
  cbn [get_resources_loop truthy andb].
  assert (Ht : negb (String.eqb nm "") = true).
  { apply negb_true_iff, String.eqb_neq, Hnm. }
  rewrite Ht. cbn [andb]. rewrite IH.
  destruct (decide (r_name res = nm)) as [Heq|Hne].
  - rewrite bool_decide_eq_true_2 by congruence. cbn [negb].
    destruct (_matches res filters); [|reflexivity].
    rewrite filter_cons, decide_True; done.
  - rewrite bool_decide_eq_false_2 by congruence. cbn [negb].
    destruct (_matches res filters); [|reflexivity].
    rewrite filter_cons, decide_False; done.
Qed.

Lemma get_resources_loop_falsy self rs name filters :
  truthy name = false ->
  get_resources_loop self rs name filters =
  get_resources_loop self rs PyNone filters.
Proof.
  intros Hf. induction rs as [|res rest IH]; [reflexivity|].
  cbn [get_resources_loop]. rewrite Hf, IH. reflexivity.
Qed.

Lemma get_resources_loop_other self rs name filters :
  truthy name = true -> (forall s, name <> PyStr s) ->
  get_resources_loop self rs name filters = [].
Proof.
  intros Ht Hs. induction rs as [|res rest IH]; [reflexivity|].
  cbn [get_resources_loop]. rewrite Ht, IH.
  rewrite bool_decide_eq_false_2; [reflexivity|]. intros Heq. by eapply Hs.
Qed.

Lemma find_resource_Some rs nm res :
  find_resource rs nm = Some res <->
  exists pre post, rs = (pre ++ res :: post)%list /\ r_name res = nm /\
                   Forall (fun r => r_name r <> nm) pre.
Proof.
  induction rs as [|r rest IH]; cbn [find_resource].
  - split; [discriminate|]. intros (pre & post & Heq & _).
    by destruct pre.
  - destruct (String.eqb_spec (r_name r) nm) as [Hr|Hr].
    + split.
      * intros [= <-]. exists [], rest. by repeat split.
      * intros (pre & post & Heq & Hn & Hpre).
        destruct pre as [|p pre]; cbn in Heq.
        -- by injection Heq as <- _.
        -- injection Heq as <- _. by inversion Hpre.
    + rewrite IH. split.
      * intros (pre & post & -> & Hn & Hpre).
        exists (r :: pre), post. repeat split; [done|]. by constructor.
      * intros (pre & post & Heq & Hn & Hpre).
        destruct pre as [|p pre]; cbn in Heq.
        -- injection Heq as -> _. congruence.
        -- injection Heq as <- ->. inversion Hpre; subst. eauto.
Qed.

Lemma find_resource_None rs nm :
  find_resource rs nm = None <-> Forall (fun r => r_name r <> nm) rs.
Proof.
  induction rs as [|r rest IH]; cbn [find_resource].
  - split; [constructor|done].
  - destruct (String.eqb_spec (r_name r) nm) as [Hr|Hr].
    + split; [discriminate|]. by inversion 1.
    + rewrite IH. split; [by constructor|by inversion 1].
Qed.

Lemma _matches_union_l res filters more :
  _matches res (filters ∪ more) = true -> _matches res filters = true.
Proof.
  rewrite !_matches_spec. intros Hall f v Hf.
  apply Hall. by apply lookup_union_Some_l.
Qed.

Lemma get_resources_loop_sublist_key_of self rs name filters :
  sublist (get_resources_loop self rs name filters) (key_of self <$> rs).
Proof.
  induction rs as [|res rest IH]; [constructor|].
  cbn [get_resources_loop fmap list_fmap].
  destruct (_ && _); [by apply sublist_cons|].
  destruct (_matches res filters); [by apply sublist_skip|by apply sublist_cons].
Qed.
End DescriptorFacts.

(** X1.  A non-empty [name] restricts [get_resources] to the keys of that
    name: the result is the result without a name, filtered on the name.
    An empty string is no name at all. *)
Theorem get_resources_named_is_the_unnamed_result_filtered
    (self : DatapackageDescriptor.t) (nm : string)
    (filters : gmap string pyval) :
  DatapackageDescriptor.get_resources self (PyStr nm) filters =
  if decide (nm = "") then
    DatapackageDescriptor.get_resources self PyNone filters
  else
    filter (fun k => PudlResourceKey.name k = nm)
           (DatapackageDescriptor.get_resources self PyNone filters).
Proof.
  unfold DatapackageDescriptor.get_resources. destruct (decide _) as [->|Hnm].
  - by apply get_resources_loop_falsy.
  - by apply get_resources_loop_named.
Qed.

(** X2.  The [name] argument is taken by its truth value: every false
    value ([None], [""], [0], [False]) selects as no name does, and a true
    value that is not a string equals no resource name, so nothing is
    yielded. *)
Theorem get_resources_name_that_is_no_string
    (self : DatapackageDescriptor.t) (name : pyval)
    (filters : gmap string pyval) :
  (forall s, name <> PyStr s) ->
  DatapackageDescriptor.get_resources self name filters =
  if truthy name then []
  else DatapackageDescriptor.get_resources self PyNone filters.
Proof.
  intros Hs. unfold DatapackageDescriptor.get_resources.
  destruct (truthy name) eqn:Ht.
  - by apply get_resources_loop_other.
  - by apply get_resources_loop_falsy.
Qed.

Lemma get_resources_name_that_is_no_string_witness :
  (forall s, PyInt 2019 <> PyStr s)
  /\ DatapackageDescriptor.get_resources eia860_descriptor (PyInt 2019) ∅ = [].
Proof.
  split; [discriminate|].
  apply (get_resources_name_that_is_no_string eia860_descriptor (PyInt 2019) ∅).
  discriminate.
Defined.

(** X3.  More filter entries never add keys: the keys selected under a
    larger filter mapping are a sublist of those under the smaller one.
    Without filters and without a name every resource is selected. *)
Theorem get_resources_shrinks_with_more_filters
    (self : DatapackageDescriptor.t) (name : pyval)
    (filters more : gmap string pyval) :
  sublist (DatapackageDescriptor.get_resources self name (filters ∪ more))
          (DatapackageDescriptor.get_resources self name filters)
  /\ DatapackageDescriptor.get_resources self PyNone ∅
     = DatapackageDescriptor.key_of self
         <$> resources (DatapackageDescriptor.datapackage_json self).
Proof.
  unfold DatapackageDescriptor.get_resources. split.
  - induction (resources (DatapackageDescriptor.datapackage_json self))
      as [|res rest IH]; [constructor|].
    cbn [DatapackageDescriptor.get_resources_loop].
    destruct (_ && _); [exact IH|].
    destruct (DatapackageDescriptor._matches res (filters ∪ more)) eqn:Hm.
    + rewrite (_matches_union_l _ _ _ Hm). by apply sublist_skip.
    + destruct (DatapackageDescriptor._matches res filters);
        [by apply sublist_cons|exact IH].
  - rewrite get_resources_loop_unnamed.
    induction (resources (DatapackageDescriptor.datapackage_json self))
      as [|res rest IH]; [reflexivity|].
    rewrite filter_cons, decide_True by apply map_Forall_empty.
    cbn [fmap list_fmap]. by rewrite <- IH.
Qed.

(** X4.  [_get_resource_metadata] returns the first resource of the given
    name, and raises [KeyError] exactly when the descriptor has no
    resource of that name. *)
Theorem _get_resource_metadata_finds_the_first_of_the_name
    (self : DatapackageDescriptor.t) (nm : string) :
  let rs := resources (DatapackageDescriptor.datapackage_json self) in
  (forall res,
     DatapackageDescriptor._get_resource_metadata self nm = Return res <->
     exists pre post, rs = (pre ++ res :: post)%list /\ r_name res = nm /\
                      Forall (fun r => r_name r <> nm) pre)
  /\ ((exists msg, DatapackageDescriptor._get_resource_metadata self nm
                  = Raise (KeyError msg)) <->
      Forall (fun r => r_name r <> nm) rs)
  /\ (forall e, DatapackageDescriptor._get_resource_metadata self nm = Raise e ->
                exists msg, e = KeyError msg).
Proof.
  intros rs. unfold DatapackageDescriptor._get_resource_metadata. fold rs.
  destruct (DatapackageDescriptor.find_resource rs nm) as [r|] eqn:Hf.
  - split; [|split].
    + intros res. rewrite <- find_resource_Some, Hf.
      split; [by intros [= ->]|by intros [= ->]].
    + split; [by intros [? ?]|].
      intros Hall. apply find_resource_None in Hall. congruence.
    + discriminate.
  - split; [|split].
    + intros res. rewrite <- find_resource_Some, Hf. split; discriminate.
    + split; [|eauto]. intros _. by apply find_resource_None.
    + intros e [= <-]. eauto.
Qed.

(** X5.  Every key that [get_resources] yields belongs to the descriptor:
    it carries the descriptor's dataset and DOI, and the descriptor has
    metadata under its name, so neither [get_resource_path] nor the lookup
    of [validate_checksum] raises [KeyError] for it. *)
Theorem get_resources_yields_keys_the_descriptor_resolves
    (self : DatapackageDescriptor.t) (name : pyval)
    (filters : gmap string pyval) :
  Forall (fun k =>
            PudlResourceKey.dataset k = DatapackageDescriptor.dataset self /\
            PudlResourceKey.doi k = DatapackageDescriptor.doi self /\
            (exists res,
               DatapackageDescriptor._get_resource_metadata self
                 (PudlResourceKey.name k) = Return res /\
               r_name res = PudlResourceKey.name k) /\
            (exists u,
               DatapackageDescriptor.get_resource_path self
                 (PudlResourceKey.name k) = Return u))
         (DatapackageDescriptor.get_resources self name filters).
Proof.
  apply Forall_forall. intros k Hk.
  pose proof (get_resources_loop_sublist_key_of self
                (resources (DatapackageDescriptor.datapackage_json self))
                name filters) as Hsub.
  eapply elem_of_sublist in Hk; [|exact Hsub].
  apply list_elem_of_fmap in Hk as (res & -> & Hin).
  split; [reflexivity|]. split; [reflexivity|].
  assert (Hfound : exists r,
            DatapackageDescriptor.find_resource
              (resources (DatapackageDescriptor.datapackage_json self))
              (r_name res) = Some r).
  { destruct (DatapackageDescriptor.find_resource _ (r_name res)) as [r|] eqn:Hf;
      [eauto|].
    apply find_resource_None in Hf. rewrite Forall_forall in Hf.
    by destruct (Hf res Hin). }
  destruct Hfound as [r Hr].
  assert (Hname : r_name r = r_name res).
  { apply find_resource_Some in Hr as (? & ? & _ & ? & _). done. }
  unfold DatapackageDescriptor.get_resource_path,
    DatapackageDescriptor._get_resource_metadata, DatapackageDescriptor.key_of.
  cbn [PudlResourceKey.name]. rewrite Hr. eauto.
Qed.

(** ** The form of a checksum *)

Section DigestFacts.
Import hashlib.

Lemma all_chars_app p s t :
  all_chars p (s +:+ t) = all_chars p s && all_chars p t.
Proof.
  induction s as [|c s IH]; [reflexivity|].
  simpl. by rewrite IH, andb_assoc.
Qed.

Lemma length_app_string s t :
  String.length (s +:+ t) = (String.length s + String.length t)%nat.
Proof. induction s as [|c s IH]; [reflexivity|]. simpl. by rewrite IH. Qed.

Lemma hex_digit_lower x : 0 <= x < 16 -> is_lower_hex (hex_digit x) = true.
Proof.
  intros Hx.
  assert (Hcases : x = 0 \/ x = 1 \/ x = 2 \/ x = 3 \/ x = 4 \/ x = 5 \/ x = 6
                   \/ x = 7 \/ x = 8 \/ x = 9 \/ x = 10 \/ x = 11 \/ x = 12
                   \/ x = 13 \/ x = 14 \/ x = 15) by lia.
  repeat (destruct Hcases as [->|Hcases]; [reflexivity|]).
  by subst.
Qed.

Lemma hex_byte_form x :
  0 <= x < 256 ->
  String.length (hex_byte x) = 2%nat /\ all_chars is_lower_hex (hex_byte x) = true.
Proof.
  intros Hx. split; [reflexivity|].
  unfold hex_byte. cbn [all_chars].
  rewrite !hex_digit_lower; [reflexivity| |].
  - apply Z.mod_pos_bound. lia.
  - split; [apply Z.div_pos; lia|]. apply Z.div_lt_upper_bound; lia.
Qed.

Lemma le_bytes_range n x : Forall (fun b => 0 <= b < 256) (le_bytes n x).
Proof.
  unfold le_bytes. apply Forall_forall. intros b Hb.
  apply list_elem_of_fmap in Hb as (i & -> & _).
  apply Z.mod_pos_bound. lia.
Qed.

Lemma concat_hex_bytes bs :
  Forall (fun b => 0 <= b < 256) bs ->
  String.length (String.concat "" (map hex_byte bs)) = (2 * length bs)%nat
  /\ all_chars is_lower_hex (String.concat "" (map hex_byte bs)) = true.
Proof.
  induction 1 as [|b bs Hb _ [IHl IHc]]; [done|].
  destruct (hex_byte_form b Hb) as [Hl Hc].
  cbn [map String.concat length].
  destruct (map hex_byte bs) as [|h t] eqn:Hm.
  - destruct bs; [|discriminate]. split; [by rewrite Hl|exact Hc].
  - change (String.length (hex_byte b +:+ "" +:+ String.concat "" (h :: t))
            = (2 * S (length bs))%nat
            /\ all_chars is_lower_hex
                 (hex_byte b +:+ "" +:+ String.concat "" (h :: t)) = true).
    rewrite length_app_string, all_chars_app, Hl, Hc.
    change ("" +:+ String.concat "" (h :: t)) with (String.concat "" (h :: t)).
    rewrite IHl, IHc.
    split; [lia|reflexivity].
Qed.

Lemma md5_hexdigest_form content : is_hex_digest (md5_hexdigest content) = true.
Proof.
  unfold md5_hexdigest.
  destruct (fold_left compress _ init) as [[[a b] c] d].
  destruct (concat_hex_bytes
              (le_bytes 4 a ++ le_bytes 4 b ++ le_bytes 4 c ++ le_bytes 4 d))
    as [Hl Hc].
  { repeat apply Forall_app_2; apply le_bytes_range. }
  unfold is_hex_digest. rewrite Hl, Hc. reflexivity.
Qed.
End DigestFacts.

(** X6.  The integrity check compares with a lower-case hex digest of 32
    digits.  A recorded checksum of any other form (upper-case digits, a
    prefix such as "md5:", another length) fails the check for every
    content: [validate_checksum] raises [ChecksumMismatch]. *)
Theorem validate_checksum_rejects_a_checksum_of_another_form
    (self : DatapackageDescriptor.t) (name content : string)
    (res : Resource) (recorded : string) :
  DatapackageDescriptor._get_resource_metadata self name = Return res ->
  r_hash res = Some recorded ->
  is_hex_digest recorded = false ->
  DatapackageDescriptor.validate_checksum self name content
  = Raise (checksum_mismatch name recorded (hashlib.md5_hexdigest content)).
Proof.
  intros Hm Hh Hform.
  unfold DatapackageDescriptor.validate_checksum. rewrite Hm, Hh.
  destruct (String.eqb_spec (hashlib.md5_hexdigest content) recorded) as [Heq|Hne];
    [|reflexivity].
  rewrite <- Heq, md5_hexdigest_form in Hform. discriminate.
Qed.

Lemma validate_checksum_rejects_a_checksum_of_another_form_witness :
  let upper : Resource :=
    {| r_name := "eia860-2019.zip"; r_path := None; r_remote_url := None;
       r_hash := Some "900150983CD24FB0D6963F7D28E17F72"; r_parts := None |} in
  let self := DatapackageDescriptor.mk {| resources := [upper] |} "eia860" eia860_doi in
  is_hex_digest "900150983CD24FB0D6963F7D28E17F72" = false
  /\ DatapackageDescriptor.validate_checksum self "eia860-2019.zip" "abc"
     = Raise (checksum_mismatch "eia860-2019.zip"
                "900150983CD24FB0D6963F7D28E17F72" (hashlib.md5_hexdigest "abc")).
Proof.
  intros upper self. split; [reflexivity|].
  apply (validate_checksum_rejects_a_checksum_of_another_form
           self "eia860-2019.zip" "abc" upper "900150983CD24FB0D6963F7D28E17F72");
    reflexivity.
Defined.

(** ** Whatever the server does *)

Section AnyServer.
Context `{Externals}.




Lemma requests_of_app tr tr' :
  requests_of (tr ++ tr') = (requests_of tr ++ requests_of tr')%list.
Proof.
  induction tr as [|[rq|z] tr IH]; cbn; [reflexivity| |exact IH]. by rewrite IH.
Qed.
End AnyServer.





(** ** Resolving descriptors *)

Section DescriptorResolution.
Context `{Externals}.
Import ZenodoFetcher.

(** [get_descriptor], step by step. *)
Lemma get_descriptor_eq ds zf n :
  get_descriptor ds (zf, n) =
  match _dataset_to_doi zf !! ds with
  | None => ((zf, n), Raise (KeyError ("No doi found for dataset " +:+ ds)))
  | Some doi =>
      if String.eqb doi "" then
        ((zf, n), Raise (KeyError ("No doi found for dataset " +:+ ds)))
      else
        match _descriptor_cache zf !! doi with
        | Some d => ((zf, n), Return d)
        | None =>
            match _doi_to_url zf doi with
            | Raise e => ((zf, n), Raise e)
            | Return u =>
                match _fetch_from_url zf u n with
                | (n1, Raise e) => ((zf, n1), Raise e)
                | (n1, Return dpkg) =>
                    match json_files (content dpkg) with
                    | Raise e => ((zf, n1), Raise e)
                    | Return files =>
                        match find_datapackage files with
                        | None =>
                            ((zf, n1),
                             Raise (RuntimeError
                                      ("Zenodo datapackage for " +:+ ds +:+ "/"
                                       +:+ doi
                                       +:+ " does not contain valid datapackage.json")))
                        | Some f =>
                            match _fetch_from_url zf (links_download f) n1 with
                            | (n2, Raise e) => ((zf, n2), Raise e)
                            | (n2, Return resp) =>
                                match json_datapackage (content resp) with
                                | Raise e => ((zf, n2), Raise e)
                                | Return dp =>
                                    match DatapackageDescriptor.__init__ dp ds doi with
                                    | Raise e => ((zf, n2), Raise e)
                                    | Return d =>
                                        ((set_descriptor doi d zf, n2), Return d)
                                    end
                                end
                            end
                        end
                    end
                end
            end
        end
  end.
Proof.
  unfold get_descriptor, bind, get_self, gets, lift, on_net, raise, ret, modify.
  cbn [fst snd].
  destruct (_dataset_to_doi zf !! ds) as [doi|]; [|reflexivity].
  cbn [truthy]. destruct (String.eqb doi ""); [reflexivity|]. cbn [negb].
  destruct (_descriptor_cache zf !! doi) as [d|]; [reflexivity|].
  destruct (_doi_to_url zf doi) as [u|e]; [|reflexivity].
  cbn [fst snd].
  destruct (_fetch_from_url zf u n) as [n1 [dpkg|e]]; [|reflexivity].
  destruct (json_files (content dpkg)) as [files|e]; [|reflexivity].
  destruct (find_datapackage files) as [f|]; [|reflexivity].
  cbn [fst snd].
  destruct (_fetch_from_url zf (links_download f) n1) as [n2 [resp|e]];
    [|reflexivity].
  destruct (json_datapackage (content resp)) as [dp|e]; [|reflexivity].
  by destruct (DatapackageDescriptor.__init__ dp ds doi) as [d|e].
Qed.

Lemma __init___Return dp ds doi d :
  DatapackageDescriptor.__init__ dp ds doi = Return d ->
  d = DatapackageDescriptor.mk dp ds doi /\ datapackage_errors dp = [].
Proof.
  unfold DatapackageDescriptor.__init__, DatapackageDescriptor._validate_datapackage.
  destruct (datapackage_errors dp); [|discriminate]. by intros [= <-].
Qed.

End DescriptorResolution.

(** The cases of [get_descriptor], one goal for each way out. *)
Ltac get_descriptor_cases ds zf n :=
  rewrite (get_descriptor_eq ds zf n);
  let doi := fresh "doi" in
  let Hdoi := fresh "Hdoi" in
  let Hne := fresh "Hne" in
  let Hmemo := fresh "Hmemo" in
  destruct (ZenodoFetcher._dataset_to_doi zf !! ds) as [doi|] eqn:Hdoi; [|];
  [destruct (String.eqb_spec doi "") as [->|Hne]; [|];
   [|destruct (ZenodoFetcher._descriptor_cache zf !! doi) as [?d|] eqn:Hmemo; [|];
     [|destruct (ZenodoFetcher._doi_to_url zf doi) as [?u|?e]; [|];
       [destruct (ZenodoFetcher._fetch_from_url zf _ n) as [?n1 [?dpkg|?e]] eqn:?Hfetch1; [|];
        [destruct (json_files (content _)) as [?files|?e]; [|];
         [destruct (ZenodoFetcher.find_datapackage _) as [?f|]; [|];
          [destruct (ZenodoFetcher._fetch_from_url zf (links_download _) _)
             as [?n2 [?resp|?e]] eqn:?Hfetch2; [|];
           [destruct (json_datapackage (content _)) as [?dp|?e]; [|];
            [destruct (DatapackageDescriptor.__init__ _ ds doi)
               as [?d|?e] eqn:?Hinit|]|]|]|]|]|]]]|].

(** X9.  [get_descriptor] memoizes by DOI and nothing else: a failed call
    leaves the fetcher as it was, a successful one leaves it with the
    returned descriptor stored under the configured DOI of the dataset,
    and a descriptor that was not in the memo before is the validated one
    of this dataset and DOI.  The token, the DOI table and the session
    never change. *)
Theorem get_descriptor_memoizes_only_what_it_returns
    `{Externals} (ds : string) (zf : ZenodoFetcher.t) (n : Net) :
  let out := ZenodoFetcher.get_descriptor ds (zf, n) in
  let zf' := out.1.1 in
  ZenodoFetcher._api_root zf' = ZenodoFetcher._api_root zf
  /\ ZenodoFetcher._token zf' = ZenodoFetcher._token zf
  /\ ZenodoFetcher._dataset_to_doi zf' = ZenodoFetcher._dataset_to_doi zf
  /\ ZenodoFetcher.http zf' = ZenodoFetcher.http zf
  /\ match out.2 with
     | Raise _ => zf' = zf
     | Return d =>
         exists doi,
           ZenodoFetcher._dataset_to_doi zf !! ds = Some doi /\ doi <> "" /\
           ZenodoFetcher._descriptor_cache zf'
             = <[doi := d]> (ZenodoFetcher._descriptor_cache zf) /\
           (ZenodoFetcher._descriptor_cache zf !! doi = None ->
            DatapackageDescriptor.dataset d = ds /\
            DatapackageDescriptor.doi d = doi /\
            datapackage_errors (DatapackageDescriptor.datapackage_json d) = [])
     end.
Proof.
  intros out zf'. subst zf' out.
  get_descriptor_cases ds zf n; try (by cbn).
  - cbn. repeat split. exists doi.
    split; [done|]. split; [done|]. split; [|congruence].
    symmetry. by apply insert_id.
  - apply __init___Return in Hinit as [-> Hvalid].
    cbn. repeat split. exists doi.
    split; [done|]. split; [done|]. split; [reflexivity|]. by intros _.
Qed.

(** X10.  A descriptor is resolved once: after a successful
    [get_descriptor], the same call returns the same descriptor and
    changes nothing, so it sends no request. *)
Theorem get_descriptor_is_answered_from_the_memo_the_second_time
    `{Externals} (ds : string) (zf zf' : ZenodoFetcher.t) (n n' : Net)
    (d : DatapackageDescriptor.t) :
  ZenodoFetcher.get_descriptor ds (zf, n) = ((zf', n'), Return d) ->
  ZenodoFetcher.get_descriptor ds (zf', n') = ((zf', n'), Return d).
Proof.
  get_descriptor_cases ds zf n; try discriminate; intros [= <- <- <-].
  - rewrite get_descriptor_eq, Hdoi, Hmemo.
    apply String.eqb_neq in Hne. by rewrite Hne.
  - rewrite get_descriptor_eq. cbn [ZenodoFetcher.set_descriptor
      ZenodoFetcher._dataset_to_doi ZenodoFetcher._descriptor_cache].
    rewrite Hdoi, lookup_insert_eq.
    apply String.eqb_neq in Hne. by rewrite Hne.
Qed.

Lemma get_descriptor_is_answered_from_the_memo_the_second_time_witness :
  let zf := ZenodoFetcher.__init__ false in
  let n := archive_script [answer 200 "deposition"; answer 503 "busy";
                           answer 200 "datapackage"] in
  let zf' := ZenodoFetcher.set_descriptor eia860_doi eia860_descriptor zf in
  let n' := (ZenodoFetcher.get_descriptor "eia860" (zf, n)).1.2 in
  ZenodoFetcher.get_descriptor "eia860" (zf, n) = ((zf', n'), Return eia860_descriptor)
  /\ attempts (trace n') = 3%nat
  /\ ZenodoFetcher.get_descriptor "eia860" (zf', n')
     = ((zf', n'), Return eia860_descriptor).
Proof.
  intros zf n zf' n'.
  assert (Hfirst : ZenodoFetcher.get_descriptor (H := scripted_archive) "eia860" (zf, n)
                   = ((zf', n'), Return eia860_descriptor)) by reflexivity.
  split; [exact Hfirst|]. split; [reflexivity|].
  exact (get_descriptor_is_answered_from_the_memo_the_second_time
           (H := scripted_archive) "eia860" zf zf' n n' eia860_descriptor Hfirst).
Defined.



(** ** The datastore's descriptors and turns *)

Section DatastoreFacts.
Context `{Externals} {C : Type} `{!resource_cache.AbstractCache C}.
Import resource_cache Datastore.

(** [get_datapackage_descriptor], step by step. *)
Lemma get_datapackage_descriptor_eq ds (dstore : Datastore.t C) n :
  get_datapackage_descriptor ds (dstore, n) =
  match ZenodoFetcher.get_doi (_zenodo_fetcher dstore) ds with
  | Raise e => ((dstore, n), Raise e)
  | Return doi =>
      match _datapackage_descriptors dstore !! doi with
      | Some d => ((dstore, n), Return d)
      | None =>
          let res := PudlResourceKey.mk ds doi "datapackage.json" in
          if contains (_cache dstore) res then
            match get res (_cache dstore) with
            | (c', Raise e) =>
                ((mk c' (_datapackage_descriptors dstore) (_zenodo_fetcher dstore), n),
                 Raise e)
            | (c', Return b) =>
                match json_datapackage b with
                | Raise e =>
                    ((mk c' (_datapackage_descriptors dstore)
                         (_zenodo_fetcher dstore), n), Raise e)
                | Return dp =>
                    match DatapackageDescriptor.__init__ dp ds doi with
                    | Raise e =>
                        ((mk c' (_datapackage_descriptors dstore)
                             (_zenodo_fetcher dstore), n), Raise e)
                    | Return d =>
                        ((mk c' (<[doi := d]> (_datapackage_descriptors dstore))
                             (_zenodo_fetcher dstore), n), Return d)
                    end
                end
            end
          else
            match ZenodoFetcher.get_descriptor ds (_zenodo_fetcher dstore, n) with
            | ((zf', n'), Raise e) =>
                ((mk (_cache dstore) (_datapackage_descriptors dstore) zf', n'),
                 Raise e)
            | ((zf', n'), Return desc) =>
                match add res (DatapackageDescriptor.get_json_string desc)
                        (_cache dstore) with
                | (c', Return _) =>
                    ((mk c' (<[doi := desc]> (_datapackage_descriptors dstore)) zf',
                      n'), Return desc)
                | (c', Raise e) =>
                    ((mk c' (<[doi := desc]> (_datapackage_descriptors dstore)) zf',
                      n'), Raise e)
                end
            end
      end
  end.
Proof.
  unfold get_datapackage_descriptor, bind, gets, lift, ret, on_cache, on_fetcher,
    set_datapackage_descriptor, modify.
  cbn [fst snd].
  destruct (ZenodoFetcher.get_doi _ ds) as [doi|e]; [|reflexivity].
  destruct (_datapackage_descriptors dstore !! doi) as [d|]; [reflexivity|].
  cbn zeta. destruct (contains _ _).
  - cbn [fst snd]. destruct (get _ (_cache dstore)) as [c' [b|e]]; [|reflexivity].
    destruct (json_datapackage b) as [dp|e]; [|reflexivity].
    destruct (DatapackageDescriptor.__init__ dp ds doi) as [d|e]; reflexivity.
  - cbn [fst snd].
    destruct (ZenodoFetcher.get_descriptor ds _) as [[zf' n'] [desc|e]];
      [|reflexivity].
    cbn [fst snd _cache _datapackage_descriptors _zenodo_fetcher].
    by destruct (add _ _ (_cache dstore)) as [c' [[]|e]].
Qed.

Lemma get_descriptor_keeps_the_table ds zf n :
  ZenodoFetcher._dataset_to_doi (ZenodoFetcher.get_descriptor ds (zf, n)).1.1
  = ZenodoFetcher._dataset_to_doi zf.
Proof. get_descriptor_cases ds zf n; reflexivity. Qed.

(** [get_resources_turn], step by step. *)
Lemma get_resources_turn_eq cached_only skip res (dstore : Datastore.t C) n :
  get_resources_turn cached_only skip res (dstore, n) =
  if is_optimally_cached (_cache dstore) res && skip then
    ((dstore, n), Return None)
  else if contains (_cache dstore) res then
    match get res (_cache dstore) with
    | (c', Return v) =>
        ((mk c' (_datapackage_descriptors dstore) (_zenodo_fetcher dstore), n),
         Return (Some (res, v)))
    | (c', Raise e) =>
        ((mk c' (_datapackage_descriptors dstore) (_zenodo_fetcher dstore), n),
         Raise e)
    end
  else if cached_only then ((dstore, n), Return None)
  else
    match ZenodoFetcher.get_resource res (_zenodo_fetcher dstore, n) with
    | ((zf', n'), Raise e) =>
        ((mk (_cache dstore) (_datapackage_descriptors dstore) zf', n'), Raise e)
    | ((zf', n'), Return contents) =>
        match add res contents (_cache dstore) with
        | (c', Return _) =>
            ((mk c' (_datapackage_descriptors dstore) zf', n'),
             Return (Some (res, contents)))
        | (c', Raise e) =>
            ((mk c' (_datapackage_descriptors dstore) zf', n'), Raise e)
        end
    end.
Proof.
  destruct (is_optimally_cached (_cache dstore) res && skip) eqn:Hopt.
  { unfold get_resources_turn, bind, gets, ret. cbn [fst]. by rewrite Hopt. }
  destruct (contains (_cache dstore) res) eqn:Hc.
  { unfold get_resources_turn, bind, gets, ret, on_cache. cbn [fst snd].
    rewrite Hopt, Hc. cbn [fst snd].
    destruct (get res (_cache dstore)) as [c' [v|e]]; reflexivity. }
  destruct cached_only.
  { unfold get_resources_turn, bind, gets, ret. cbn [fst]. by rewrite Hopt, Hc. }
  by apply get_resources_turn_fetch.
Qed.
End DatastoreFacts.

(** X12.  The datastore resolves the descriptor of a dataset once: after
    a successful [get_datapackage_descriptor] the same call returns the
    same descriptor and leaves datastore, cache and network untouched. *)
Theorem get_datapackage_descriptor_is_resolved_once
    `{Externals} {C : Type} `{!resource_cache.AbstractCache C}
    (ds : string) (s s' : Datastore.t C * Net) (d : DatapackageDescriptor.t) :
  Datastore.get_datapackage_descriptor ds s = (s', Return d) ->
  Datastore.get_datapackage_descriptor ds s' = (s', Return d).
Proof.
  destruct s as [dstore n], s' as [dstore' n'].
  rewrite !get_datapackage_descriptor_eq.
  destruct (ZenodoFetcher.get_doi (Datastore._zenodo_fetcher dstore) ds)
    as [doi|e] eqn:Hdoi; [|discriminate].
  destruct (Datastore._datapackage_descriptors dstore !! doi) as [d0|] eqn:Hmemo.
  { intros [= <- <- <-]. by rewrite Hdoi, Hmemo. }
  cbn zeta. destruct (resource_cache.contains _ _).
  - destruct (resource_cache.get _ _) as [c' [b|e]]; [|discriminate].
    destruct (json_datapackage b) as [dp|e]; [|discriminate].
    destruct (DatapackageDescriptor.__init__ dp ds doi) as [d1|e]; [|discriminate].
    intros [= <- <- <-]. cbn [Datastore._zenodo_fetcher Datastore._datapackage_descriptors].
    by rewrite Hdoi, lookup_insert_eq.
  - pose proof (get_descriptor_keeps_the_table ds
                  (Datastore._zenodo_fetcher dstore) n) as Htable.
    destruct (ZenodoFetcher.get_descriptor ds _) as [[zf' n1] [desc|e]];
      [|discriminate].
    cbn [fst] in Htable.
    destruct (resource_cache.add _ _ _) as [c' [[]|e]]; [|discriminate].
    intros [= <- <- <-]. cbn [Datastore._zenodo_fetcher Datastore._datapackage_descriptors].
    unfold ZenodoFetcher.get_doi in *. rewrite Htable.
    destruct (ZenodoFetcher._dataset_to_doi _ !! ds) as [doi'|]; [|discriminate].
    injection Hdoi as ->. by rewrite lookup_insert_eq.
Qed.

Lemma get_datapackage_descriptor_is_resolved_once_witness :
  let s := (Datastore.mk (C := resource_cache.LayeredCache) [∅]
              ∅ (ZenodoFetcher.__init__ false),
            archive_script [answer 200 "deposition"; answer 200 "datapackage"]) in
  let s' := (Datastore.get_datapackage_descriptor "eia860" s).1 in
  Datastore.get_datapackage_descriptor "eia860" s = (s', Return eia860_descriptor)
  /\ Datastore.get_datapackage_descriptor "eia860" s' = (s', Return eia860_descriptor).
Proof.
  intros s s'.
  assert (Hfirst : Datastore.get_datapackage_descriptor (H := scripted_archive)
                     "eia860" s = (s', Return eia860_descriptor)) by reflexivity.
  split; [exact Hfirst|].
  exact (get_datapackage_descriptor_is_resolved_once (H := scripted_archive)
           "eia860" s s' eia860_descriptor Hfirst).
Defined.

(** X13.  The descriptor is taken from the cache before the network: when
    it is not yet known to the datastore and the cache contains the
    [datapackage.json] of the dataset and DOI, the descriptor is read from
    the cache, and neither the fetcher nor the network is touched,
    whatever comes of the read. *)
Theorem get_datapackage_descriptor_prefers_the_cache
    `{Externals} {C : Type} `{!resource_cache.AbstractCache C}
    (ds doi : string) (dstore : Datastore.t C) (n : Net) :
  ZenodoFetcher.get_doi (Datastore._zenodo_fetcher dstore) ds = Return doi ->
  Datastore._datapackage_descriptors dstore !! doi = None ->
  resource_cache.contains (Datastore._cache dstore)
    (PudlResourceKey.mk ds doi "datapackage.json") = true ->
  let out := Datastore.get_datapackage_descriptor ds (dstore, n) in
  Datastore._zenodo_fetcher out.1.1 = Datastore._zenodo_fetcher dstore
  /\ out.1.2 = n
  /\ forall d, out.2 = Return d ->
       exists b dp,
         (resource_cache.get (PudlResourceKey.mk ds doi "datapackage.json")
            (Datastore._cache dstore)).2 = Return b /\
         json_datapackage b = Return dp /\
         d = DatapackageDescriptor.mk dp ds doi /\
         datapackage_errors dp = [] /\
         Datastore._datapackage_descriptors out.1.1 !! doi = Some d.
Proof.
  intros Hdoi Hmemo Hc out. subst out.
  rewrite get_datapackage_descriptor_eq, Hdoi, Hmemo. cbn zeta. rewrite Hc.
  destruct (resource_cache.get _ _) as [c' [b|e]]; [|by cbn].
  destruct (json_datapackage b) as [dp|e] eqn:Hdp; [|by cbn].
  destruct (DatapackageDescriptor.__init__ dp ds doi) as [d1|e] eqn:Hinit;
    [|by cbn].
  apply __init___Return in Hinit as [-> Hvalid].
  cbn. repeat split. intros d [= <-]. exists b, dp.
  repeat split; [done..|]. by rewrite lookup_insert_eq.
Qed.

Lemma get_datapackage_descriptor_prefers_the_cache_witness :
  let key := PudlResourceKey.mk "eia860" eia860_doi "datapackage.json" in
  let dstore := Datastore.mk (C := resource_cache.LayeredCache)
                  [∅; {[ key := "datapackage" ]}] ∅ (ZenodoFetcher.__init__ false) in
  let n := archive_script [] in
  let out := Datastore.get_datapackage_descriptor "eia860" (dstore, n) in
  out.2 = Return eia860_descriptor
  /\ Datastore._zenodo_fetcher out.1.1 = Datastore._zenodo_fetcher dstore
  /\ out.1.2 = n.
Proof.
  intros key dstore n out.
  split; [reflexivity|].
  pose proof (get_datapackage_descriptor_prefers_the_cache (H := scripted_archive)
                "eia860" eia860_doi dstore n eq_refl eq_refl eq_refl)
    as (Hzf & Hn & _).
  split; [exact Hzf|exact Hn].
Defined.

(** X14.  A turn of [get_resources] reaches the fetcher only for a key
    that is not skipped, not in the cache, and with [cached_only] off: in
    every other case the fetcher and the network are as before.  With
    [cached_only] the whole loop sends nothing. *)
Theorem get_resources_downloads_only_what_is_missing
    `{Externals} {C : Type} `{!resource_cache.AbstractCache C}
    (cached_only skip : bool) (dstore : Datastore.t C) (n : Net) :
  (forall res,
     cached_only = true
     \/ resource_cache.contains (Datastore._cache dstore) res = true
     \/ resource_cache.is_optimally_cached (Datastore._cache dstore) res && skip
        = true ->
     let out := Datastore.get_resources_turn cached_only skip res (dstore, n) in
     Datastore._zenodo_fetcher out.1.1 = Datastore._zenodo_fetcher dstore
     /\ Datastore._datapackage_descriptors out.1.1
        = Datastore._datapackage_descriptors dstore
     /\ out.1.2 = n)
  /\ (forall keys,
        let out := Datastore.get_resources_loop true skip keys (dstore, n) in
        Datastore._zenodo_fetcher out.1.1 = Datastore._zenodo_fetcher dstore
        /\ Datastore._datapackage_descriptors out.1.1
           = Datastore._datapackage_descriptors dstore
        /\ out.1.2 = n).
Proof.
  assert (Hturn : forall co (d0 : Datastore.t C) n0 res,
            co = true
            \/ resource_cache.contains (Datastore._cache d0) res = true
            \/ resource_cache.is_optimally_cached (Datastore._cache d0) res && skip
               = true ->
            let out := Datastore.get_resources_turn co skip res (d0, n0) in
            Datastore._zenodo_fetcher out.1.1 = Datastore._zenodo_fetcher d0
            /\ Datastore._datapackage_descriptors out.1.1
               = Datastore._datapackage_descriptors d0
            /\ out.1.2 = n0).
  { intros co d0 n0 res Hcase out. subst out. rewrite get_resources_turn_eq.
    destruct (_ && skip) eqn:Hopt; [done|].
    destruct (resource_cache.contains _ res) eqn:Hc.
    { by destruct (resource_cache.get res _) as [c' [v|e]]. }
    destruct co; [done|]. by destruct Hcase as [?|[?|?]]. }
  split; [intros res; apply Hturn|].
  intros keys. revert dstore n.
  induction keys as [|res rest IH]; intros dstore n; [done|].
  cbn [Datastore.get_resources_loop]. unfold bind.
  pose proof (Hturn true dstore n res (or_introl eq_refl)) as Ht. cbn zeta in Ht.
  destruct (Datastore.get_resources_turn true skip res (dstore, n))
    as [[d1 n1] [y|e]]; cbn [fst snd] in Ht; [|exact Ht].
  specialize (IH d1 n1). cbn zeta in IH.
  destruct Ht as (Hz & Hd & Hn).
  destruct (Datastore.get_resources_loop true skip rest (d1, n1))
    as [[d2 n2] [ys|e]]; cbn [fst snd] in *; unfold ret; cbn [fst snd];
    destruct IH as (Hz2 & Hd2 & Hn2); repeat split; congruence.
Qed.


(** X16.  With [skip_optimally_cached], a run over keys that are all
    optimally cached yields nothing and changes nothing: no cache read,
    no download. *)
Theorem get_resources_skips_what_is_optimally_cached
    `{Externals} {C : Type} `{!resource_cache.AbstractCache C}
    (cached_only : bool) (keys : list PudlResourceKey.t)
    (dstore : Datastore.t C) (n : Net) :
  Forall (fun k => resource_cache.is_optimally_cached (Datastore._cache dstore) k
                   = true) keys ->
  Datastore.get_resources_loop cached_only true keys (dstore, n)
  = ((dstore, n), Return []).
Proof.
  induction 1 as [|res rest Hopt _ IH]; [reflexivity|].
  cbn [Datastore.get_resources_loop]. unfold bind.
  rewrite get_resources_turn_eq, Hopt. cbn [andb]. by rewrite IH.
Qed.

Lemma get_resources_skips_what_is_optimally_cached_witness :
  let dstore := Datastore.mk (C := resource_cache.LayeredCache)
                  [{[ eia860_key := "abc" ]}; ∅] ∅ eia860_fetcher in
  Forall (fun k => resource_cache.is_optimally_cached (Datastore._cache dstore) k
                   = true) [eia860_key]
  /\ Datastore.get_resources_loop false true [eia860_key] (dstore, script [])
     = ((dstore, script []), Return []).
Proof.
  intros dstore.
  assert (Hall : Forall (fun k => resource_cache.is_optimally_cached
                                    (Datastore._cache dstore) k = true)
                        [eia860_key])
    by (constructor; [reflexivity|constructor]).
  split; [exact Hall|].
  exact (get_resources_skips_what_is_optimally_cached (H := scripted)
           false [eia860_key] dstore (script []) Hall).
Defined.

(** ** The generator asked step by step *)

Section NextFacts.
Context `{Externals} {C : Type} `{!resource_cache.AbstractCache C}.
Import resource_cache Datastore.

(** The run to the end is the first [next()] followed by the run over the
    keys still to come. *)
Lemma get_resources_loop_next co sk keys (s : Datastore.t C * Net) :
  get_resources_loop co sk keys s =
  match get_resources_next co sk keys s with
  | (s1, Raise e) => (s1, Raise e)
  | (s1, Return None) => (s1, Return [])
  | (s1, Return (Some (x, rest))) =>
      match get_resources_loop co sk rest s1 with
      | (s2, Return ys) => (s2, Return (x :: ys))
      | (s2, Raise e) => (s2, Raise e)
      end
  end.
Proof.
  revert s. induction keys as [|res rest IH]; intros s; [reflexivity|].
  cbn [get_resources_loop get_resources_next]. unfold bind.
  destruct (get_resources_turn co sk res s) as [s1 [[x|]|e]]; [| |reflexivity].
  - cbn. by destruct (get_resources_loop co sk rest s1) as [s2 [ys|e]].
  - rewrite IH.
    destruct (get_resources_next co sk rest s1) as [s2 [[[x rest']|]|e]];
      [|reflexivity..].
    by destruct (get_resources_loop co sk rest' s2) as [s3 [ys|e]].
Qed.

(** After a [None] nothing is left to run. *)
Lemma get_resources_next_None co sk keys (s s1 : Datastore.t C * Net) :
  get_resources_next co sk keys s = (s1, Return None) <->
  get_resources_loop co sk keys s = (s1, Return []).
Proof.
  rewrite get_resources_loop_next.
  destruct (get_resources_next co sk keys s) as [s2 [[[x rest]|]|e]].
  - destruct (get_resources_loop co sk rest s2) as [s3 [ys|e]];
      split; discriminate.
  - split; by intros [= ->].
  - split; discriminate.
Qed.

(** Turns that yield nothing are passed over. *)
Lemma get_resources_next_app co sk pre more (s s1 : Datastore.t C * Net) :
  get_resources_loop co sk pre s = (s1, Return []) ->
  get_resources_next co sk (pre ++ more) s = get_resources_next co sk more s1.
Proof.
  revert s. induction pre as [|res rest IH]; intros s.
  { cbn. by intros [= ->]. }
  cbn [app get_resources_loop get_resources_next]. unfold bind.
  destruct (get_resources_turn co sk res s) as [s2 [[x|]|e]]; [| |discriminate].
  - destruct (get_resources_loop co sk rest s2) as [s3 [ys|e]]; discriminate.
  - destruct (get_resources_loop co sk rest s2) as [s3 [ys|e]] eqn:Hl;
      [|discriminate].
    cbn. intros [= <- ->]. by apply IH.
Qed.
End NextFacts.

(** X17.  [get_unique_resource] returns a content exactly when the whole
    run of [get_resources] with the same arguments yields one pair, and
    it returns the content of that pair, leaving the same state; when the
    whole run yields nothing it raises its "No resources found". *)
Theorem get_unique_resource_agrees_with_the_whole_run
    `{Externals} {C : Type} `{!resource_cache.AbstractCache C}
    (repr : gmap string pyval -> string) (dataset : string)
    (filters : gmap string pyval) (s s' : Datastore.t C * Net) :
  let cached_only := truthy (default (PyBool false) (filters !! "cached_only")) in
  let skip := truthy (default (PyBool false) (filters !! "skip_optimally_cached")) in
  let filters' := delete "cached_only" (delete "skip_optimally_cached" filters) in
  (forall content,
     Datastore.get_unique_resource repr dataset filters s = (s', Return content) <->
     exists key,
       Datastore.get_resources dataset cached_only skip filters' s
       = (s', Return [(key, content)]))
  /\ (Datastore.get_resources dataset cached_only skip filters' s
        = (s', Return []) ->
      Datastore.get_unique_resource repr dataset filters s
        = (s', Raise (KeyError ("No resources found for " +:+ dataset +:+ ": "
                                +:+ repr filters)))).
Proof.
  intros cached_only skip filters'.
  unfold Datastore.get_unique_resource, Datastore.get_resources, bind.
  fold cached_only skip filters'.
  destruct (Datastore.get_datapackage_descriptor dataset s) as [s0 [desc|e]].
  2:{ split; [|discriminate]. intros content. split; [discriminate|].
      by intros [? ?]. }
  set (keys := DatapackageDescriptor.get_resources desc _ _).
  rewrite get_resources_loop_next.
  destruct (Datastore.get_resources_next cached_only skip keys s0)
    as [s1 [[[[k c] rest]|]|e]].
  - pose proof (get_resources_next_None cached_only skip rest s1) as Hnone.
    rewrite get_resources_loop_next in Hnone |- *.
    destruct (Datastore.get_resources_next cached_only skip rest s1)
      as [s2 [[[x rest']|]|e]].
    + split.
      * intros content. split; [discriminate|]. intros [key Heq].
        destruct (Datastore.get_resources_loop cached_only skip rest' s2)
          as [s3 [ys|e]]; discriminate.
      * destruct (Datastore.get_resources_loop cached_only skip rest' s2)
          as [s3 [ys|e]]; discriminate.
    + split; [|discriminate]. intros content. unfold ret. split.
      * intros [= <- <-]. by exists k.
      * by intros [key [= <- <- <-]].
    + split; [|discriminate]. intros content. split; [discriminate|].
      by intros [? ?].
  - split.
    + intros content. split; [discriminate|]. by intros [? ?].
    + unfold raise. by intros [= ->].
  - split; [|discriminate]. intros content. split; [discriminate|].
    by intros [? ?].
Qed.

Section NextMore.
Context `{Externals} {C : Type} `{!resource_cache.AbstractCache C}.
Import resource_cache Datastore.

Lemma get_resources_next_app_Some co sk pre more x rest
    (s s1 : Datastore.t C * Net) :
  get_resources_next co sk pre s = (s1, Return (Some (x, rest))) ->
  get_resources_next co sk (pre ++ more) s
  = (s1, Return (Some (x, (rest ++ more)%list))).
Proof.
  revert s. induction pre as [|res pre IH]; intros s; [discriminate|].
  cbn [app get_resources_next]. unfold bind.
  destruct (get_resources_turn co sk res s) as [s2 [[y|]|e]]; [| |discriminate].
  - unfold ret. by intros [= <- <- <-].
  - apply IH.
Qed.
End NextMore.

(** X18.  [get_unique_resource] asks for two pairs and no more.  When the
    selected keys begin with keys of which one yields, followed by a key
    that yields too, it raises its "Multiple resources found" in the state
    reached after that second key: the keys behind it are never looked
    at, and both pairs found have gone through their turns. *)
Theorem get_unique_resource_stops_at_the_second_pair
    `{Externals} {C : Type} `{!resource_cache.AbstractCache C}
    (repr : gmap string pyval -> string) (dataset : string)
    (filters : gmap string pyval) (s s0 s1 s2 : Datastore.t C * Net)
    (desc : DatapackageDescriptor.t) (pre rest : list PudlResourceKey.t)
    (k2 : PudlResourceKey.t) (x1 x2 : PudlResourceKey.t * string) :
  let cached_only := truthy (default (PyBool false) (filters !! "cached_only")) in
  let skip := truthy (default (PyBool false) (filters !! "skip_optimally_cached")) in
  let filters' := delete "cached_only" (delete "skip_optimally_cached" filters) in
  Datastore.get_datapackage_descriptor dataset s = (s0, Return desc) ->
  DatapackageDescriptor.get_resources desc (default PyNone (filters' !! "name"))
    (delete "name" filters') = (pre ++ k2 :: rest)%list ->
  Datastore.get_resources_loop cached_only skip pre s0 = (s1, Return [x1]) ->
  Datastore.get_resources_turn cached_only skip k2 s1 = (s2, Return (Some x2)) ->
  Datastore.get_unique_resource repr dataset filters s
  = (s2, Raise (KeyError ("Multiple resources found for " +:+ dataset +:+ ": "
                          +:+ repr filters))).
Proof.
  intros cached_only skip filters' Hdesc Hkeys Hpre Hturn.
  unfold Datastore.get_unique_resource, bind.
  fold cached_only skip filters'. rewrite Hdesc, Hkeys.
  rewrite get_resources_loop_next in Hpre.
  destruct (Datastore.get_resources_next cached_only skip pre s0)
    as [sm [[[x rest1]|]|e]] eqn:Hnext; [|discriminate..].
  destruct (Datastore.get_resources_loop cached_only skip rest1 sm)
    as [s1' [ys|e]] eqn:Hrest; [|discriminate].
  injection Hpre as -> -> ->.
  rewrite (get_resources_next_app_Some _ _ _ (k2 :: rest) _ _ _ _ Hnext).
  destruct x1 as [k1 c1].
  rewrite (get_resources_next_app _ _ _ (k2 :: rest) _ _ Hrest).
  cbn [Datastore.get_resources_next]. unfold bind. rewrite Hturn.
  reflexivity.
Qed.

Lemma get_unique_resource_stops_at_the_second_pair_witness :
  let filters : gmap string pyval := {[ "year" := PyStr "2019" ]} in
  let s := (epacems_store, script []) in
  Datastore.get_unique_resource (fun _ => "{'year': '2019'}") "epacems" filters s
  = (s, Raise (KeyError "Multiple resources found for epacems: {'year': '2019'}")).
Proof.
  intros filters s.
  apply (get_unique_resource_stops_at_the_second_pair (H := scripted)
           (fun _ => "{'year': '2019'}") "epacems" filters s s s s
           epacems_descriptor [epacems_key "co"] [epacems_key "wy"]
           (epacems_key "id") (epacems_key "co", "abc") (epacems_key "id", "abc"));
    reflexivity.
Defined.

(** ** The command line: [ParseKeyValues] *)

Section SplitFacts.
Import Stdlib.Strings.Ascii ParseKeyValues.

Lemma split_length sep s :
  length (split sep s).2 = occurrences sep s.
Proof.
  induction s as [|c s IH]; [done|].
  cbn [split occurrences]. destruct (split sep s) as [p ps].
  destruct (Ascii.eqb c sep); cbn in *; lia.
Qed.

Lemma split_free sep s :
  occurrences sep s = 0%nat -> split sep s = (s, []).
Proof.
  induction s as [|c s IH]; [done|].
  cbn [split occurrences]. destruct (Ascii.eqb c sep); [done|].
  intros Hs. by rewrite (IH Hs).
Qed.

Lemma split_app sep a b :
  occurrences sep a = 0%nat ->
  split sep (a +:+ String sep b)
  = (a, (split sep b).1 :: (split sep b).2).
Proof.
  induction a as [|c a IH]; simpl.
  - intros _. destruct (split sep b) as [p ps]. by rewrite Ascii.eqb_refl.
  - destruct (Ascii.eqb c sep); [done|]. intros Ha.
    by rewrite (IH Ha).
Qed.

Lemma unpack_Return parts kv :
  unpack parts = Return kv <-> length parts.2 = 1%nat /\ parts.1 = kv.1
                               /\ parts.2 = [kv.2].
Proof.
  destruct parts as [k [|v [|w l]]], kv as [k' v']; cbn; split;
    try discriminate; try (intros (? & _); discriminate).
  - by intros [= -> ->].
  - by intros (_ & -> & [= ->]).
Qed.

Lemma unpack_key_value k v :
  occurrences "="%char k = 0%nat -> occurrences "="%char v = 0%nat ->
  unpack (split "="%char (k +:+ "=" +:+ v)) = Return (k, v).
Proof.
  intros Hk Hv. change (k +:+ "=" +:+ v) with (k +:+ String "=" v).
  by rewrite (split_app _ _ _ Hk), (split_free _ _ Hv).
Qed.

Lemma unpack_Raise parts :
  length parts.2 <> 1%nat -> exists msg, unpack parts = Raise (ValueError msg).
Proof.
  destruct parts as [k [|v [|w l]]]; cbn; intros Hl; by eauto.
Qed.

Lemma for_kv_Raise kv pieces :
  Exists (fun piece => occurrences "="%char piece <> 1%nat) pieces ->
  exists msg, for_kv kv pieces = Raise (ValueError msg).
Proof.
  intros Hex. revert kv. induction Hex as [piece rest Hp|piece rest _ IH];
    intros kv; cbn [for_kv].
  - destruct (unpack_Raise (split "="%char piece)) as [msg ->]; [|by eauto].
    by rewrite split_length.
  - destruct (unpack (split "="%char piece)) as [kv'|e] eqn:Hu; [apply IH|].
    destruct (decide (length (split "="%char piece).2 = 1%nat)) as [Hl|Hl].
    + destruct (split "="%char piece) as [k [|v [|w l]]]; discriminate.
    + destruct (unpack_Raise _ Hl) as [msg Hmsg]. rewrite Hmsg in Hu.
      injection Hu as <-. by eauto.
Qed.
End SplitFacts.

Section ParseFacts.
Import Stdlib.Strings.Ascii ParseKeyValues.

Lemma occurrences_app c a b :
  occurrences c (a +:+ b) = (occurrences c a + occurrences c b)%nat.
Proof. induction a as [|c' a IH]; simpl; [done|]. rewrite IH. lia. Qed.

Lemma split_join sep piece pieces :
  Forall (fun p => occurrences sep p = 0%nat) (piece :: pieces) ->
  split sep (join (String sep EmptyString) (piece :: pieces)) = (piece, pieces).
Proof.
  revert piece. induction pieces as [|q pieces IH]; intros piece Hfree.
  - apply split_free. by inversion Hfree.
  - inversion Hfree as [|? ? Hp Hrest]; subst.
    change (join (String sep EmptyString) (piece :: q :: pieces))
      with (piece +:+ String sep (join (String sep EmptyString) (q :: pieces))).
    by rewrite (split_app _ _ _ Hp), (IH _ Hrest).
Qed.

Lemma written_free kv : writable kv -> occurrences ","%char (written kv) = 0%nat.
Proof.
  intros (Hk & _ & Hv & _). unfold written.
  rewrite !occurrences_app, Hk, Hv. reflexivity.
Qed.

Lemma unpack_written kv :
  writable kv -> unpack (split "=" (written kv)) = Return kv.
Proof.
  intros (_ & Hk & _ & Hv). destruct kv as [k v]. by apply unpack_key_value.
Qed.

Lemma for_kv_written kv pairs :
  Forall writable pairs ->
  for_kv kv (written <$> pairs) = Return (default kv (last pairs)).
Proof.
  intros Hall. revert kv. induction Hall as [|kv' pairs Hkv _ IH]; intros kv.
  - reflexivity.
  - cbn [fmap list_fmap for_kv]. rewrite (unpack_written _ Hkv), IH, last_cons.
    by destruct (last pairs).
Qed.

Lemma unpack_raises_ValueError parts e :
  unpack parts = Raise e -> exists msg, e = ValueError msg.
Proof. destruct parts as [k [|v [|w l]]]; cbn; intros [= <-]; eauto. Qed.

(** X19.  Of a well-formed value [k1=v1,...,kn=vn] the action keeps the
    last pair only: the assignment to the dict stands after the loop over
    the pairs, so the pairs before the last are parsed and dropped.  What
    the namespace held before stays, but for the key [kn]. *)
Theorem ParseKeyValues_keeps_the_last_pair_of_a_value
    (pairs : list (string * string)) (k v : string)
    (namespace : option (gmap string string)) :
  Forall ParseKeyValues.writable (pairs ++ [(k, v)])%list ->
  ParseKeyValues.__call__
    (ParseKeyValues.Str
       (ParseKeyValues.join "," (ParseKeyValues.written <$> (pairs ++ [(k, v)])%list))) namespace
  = (Some (<[k := v]> (default ∅ namespace)), Return tt).
Proof.
  intros Hall. unfold ParseKeyValues.__call__.
  cbn [ParseKeyValues.for_val]. unfold bind, lift, modify, ret.
  destruct (pairs ++ [(k, v)])%list as [|kv0 others] eqn:Hl;
    [by destruct pairs|].
  assert (Hlast : default kv0 (last others) = (k, v)).
  { assert (Hs : last (kv0 :: others) = Some (k, v))
      by (rewrite <- Hl; apply last_snoc).
    rewrite last_cons in Hs. destruct (last others); by injection Hs as ->. }
  assert (Hfree : Forall (fun p => ParseKeyValues.occurrences ","%char p = 0%nat)
                     (ParseKeyValues.written <$> kv0 :: others)).
  { apply Forall_fmap. eapply Forall_impl; [exact Hall|].
    intros kv. apply written_free. }
  cbn [fmap list_fmap] in Hfree |- *.
  rewrite (split_join _ _ _ Hfree).
  inversion Hall as [|? ? H0 Hrest]; subst.
  rewrite (unpack_written _ H0), (for_kv_written _ _ Hrest), Hlast.
  reflexivity.
Qed.

Lemma ParseKeyValues_keeps_the_last_pair_of_a_value_witness :
  Forall ParseKeyValues.writable ([("year", "2019")] ++ [("state", "co")])%list
  /\ ParseKeyValues.__call__ (ParseKeyValues.Str "year=2019,state=co")
       (Some {[ "name" := "a.zip" ]})
     = (Some (<[ "state" := "co" ]> {[ "name" := "a.zip" ]}), Return tt).
Proof.
  assert (Hall : Forall ParseKeyValues.writable ([("year", "2019")] ++ [("state", "co")])%list)
    by (repeat constructor).
  split; [exact Hall|].
  exact (ParseKeyValues_keeps_the_last_pair_of_a_value
           [("year", "2019")] "state" "co" (Some {[ "name" := "a.zip" ]}) Hall).
Defined.

(** X20.  A value one of whose pieces between commas has no equals sign,
    or more than one, makes the action raise [ValueError], and the
    namespace is left as it was.  The empty value and a value that ends
    in a comma are of this kind. *)
Theorem ParseKeyValues_raises_on_a_piece_that_is_no_pair
    (val : string) (namespace : option (gmap string string)) :
  Exists (fun piece => ParseKeyValues.occurrences "="%char piece <> 1%nat)
         ((ParseKeyValues.split ","%char val).1 :: (ParseKeyValues.split ","%char val).2) ->
  exists msg,
    ParseKeyValues.__call__ (ParseKeyValues.Str val) namespace
    = (namespace, Raise (ValueError msg)).
Proof.
  intros Hex. unfold ParseKeyValues.__call__.
  cbn [ParseKeyValues.for_val]. unfold bind, lift.
  destruct (ParseKeyValues.split ","%char val) as [piece pieces]. cbn [fst snd] in Hex.
  assert (Hraise : exists msg,
    match ParseKeyValues.unpack (ParseKeyValues.split "="%char piece) with
    | Return kv => ParseKeyValues.for_kv kv pieces
    | Raise e => Raise e
    end = Raise (ValueError msg)).
  { destruct (ParseKeyValues.unpack (ParseKeyValues.split "="%char piece))
      as [kv|e] eqn:Hu.
    - apply for_kv_Raise. inversion Hex as [? ? Hp|]; subst; [|done].
      apply unpack_Return in Hu as (Hlen & _). by rewrite split_length in Hlen.
    - destruct (unpack_raises_ValueError _ _ Hu) as [msg ->]. eauto. }
  destruct Hraise as [msg ->]. exists msg. by destruct namespace.
Qed.

Lemma ParseKeyValues_raises_on_a_piece_that_is_no_pair_witness :
  Exists (fun piece => ParseKeyValues.occurrences "="%char piece <> 1%nat)
         ((ParseKeyValues.split ","%char "year=2019,").1
          :: (ParseKeyValues.split ","%char "year=2019,").2)
  /\ exists msg,
       ParseKeyValues.__call__ (ParseKeyValues.Str "year=2019,") None
       = (None, Raise (ValueError msg)).
Proof.
  assert (Hex : Exists (fun piece => ParseKeyValues.occurrences "="%char piece <> 1%nat)
                  ((ParseKeyValues.split ","%char "year=2019,").1
                   :: (ParseKeyValues.split ","%char "year=2019,").2))
    by (apply Exists_cons_tl, Exists_cons_hd; discriminate).
  split; [exact Hex|].
  exact (ParseKeyValues_raises_on_a_piece_that_is_no_pair "year=2019," None Hex).
Defined.
End ParseFacts.

(** ** The configured datasets and their DOIs *)

Section OrderFacts.

Lemma string_compare_Lt_trans (a b c : string) :
  String.compare a b = Lt -> String.compare b c = Lt -> String.compare a c = Lt.
Proof.
  revert b c. induction a as [|x a IH]; intros [|y b] [|z c]; simpl;
    try done.
  destruct (Ascii.compare x y) eqn:Hxy, (Ascii.compare y z) eqn:Hyz;
    try done.
  - apply Ascii.compare_eq_iff in Hxy as ->. apply Ascii.compare_eq_iff in Hyz as ->.
    rewrite (proj2 (N.compare_eq_iff _ _) eq_refl : Ascii.compare z z = Eq).
    apply IH.
  - apply Ascii.compare_eq_iff in Hxy as ->. by rewrite Hyz.
  - apply Ascii.compare_eq_iff in Hyz as ->. by rewrite Hxy.
  - unfold Ascii.compare in *. rewrite N.compare_lt_iff in Hxy, Hyz.
    by rewrite (proj2 (N.compare_lt_iff _ _) (N.lt_trans _ _ _ Hxy Hyz)).
Qed.

Lemma string_compare_refl (a : string) : String.compare a a = Eq.
Proof.
  induction a as [|x a IH]; simpl; [done|].
  by rewrite (proj2 (N.compare_eq_iff _ _) eq_refl : Ascii.compare x x = Eq).
Qed.

#[local] Instance string_leb_trans :
  Transitive (fun a b => Is_true (String.leb a b)).
Proof.
  intros a b c. unfold String.leb.
  destruct (String.compare a b) eqn:Hab; [| |done];
    destruct (String.compare b c) eqn:Hbc; try done; intros _ _.
  - apply String.compare_eq_iff in Hab as ->. by rewrite Hbc.
  - apply String.compare_eq_iff in Hab as ->. by rewrite Hbc.
  - apply String.compare_eq_iff in Hbc as ->. by rewrite Hab.
  - by rewrite (string_compare_Lt_trans _ _ _ Hab Hbc).
Qed.

#[local] Instance string_leb_total :
  Total (fun a b => Is_true (String.leb a b)).
Proof.
  intros a b. destruct (String.leb_total a b) as [->| ->]; [by left|by right].
Qed.

(** X21.  [get_known_datasets] lists the datasets [get_doi] has a DOI
    for, each of them once, in ascending order. *)
Theorem get_known_datasets_lists_what_get_doi_knows (self : ZenodoFetcher.t) :
  let known := ZenodoFetcher.get_known_datasets self in
  (forall dataset, dataset ∈ known
     <-> exists doi, ZenodoFetcher.get_doi self dataset = Return doi)
  /\ NoDup known
  /\ StronglySorted (fun a b => Is_true (String.leb a b)) known.
Proof.
  intros known. unfold known, ZenodoFetcher.get_known_datasets.
  split; [|split].
  - intros dataset. rewrite merge_sort_Permutation.
    unfold ZenodoFetcher.get_doi. rewrite list_elem_of_fmap. split.
    + intros ([ds doi] & -> & Hin). apply elem_of_map_to_list in Hin.
      cbn [fst]. rewrite Hin. eauto.
    + intros [doi Hdoi].
      destruct (ZenodoFetcher._dataset_to_doi self !! dataset) as [doi'|] eqn:Hl;
        [|discriminate].
      exists (dataset, doi'). split; [done|]. by apply elem_of_map_to_list.
  - rewrite merge_sort_Permutation. apply NoDup_fst_map_to_list.
  - apply (StronglySorted_merge_sort _).
Qed.
End OrderFacts.

Section DoiFacts.



End DoiFacts.



(** X23.  Every DOI of the two tables is one [_doi_to_url] accepts: for
    a dataset [get_doi] knows, the URL is the deposition, below the API
    root of the backend, whose number ends the DOI.  So [get_descriptor]
    never fails with "Invalid doi" on a dataset it has a DOI for. *)
Theorem _doi_to_url_accepts_every_configured_doi
    (use_sandbox : bool) (dataset doi : string) :
  let self := ZenodoFetcher.__init__ use_sandbox in
  ZenodoFetcher.get_doi self dataset = Return doi ->
  exists number : string,
    doi = (if use_sandbox then "10.5072" else "10.5281") +:+ "/zenodo." +:+ number
    /\ ZenodoFetcher._doi_to_url self doi
       = Return ((if use_sandbox then "https://sandbox.zenodo.org/api"
                  else "https://zenodo.org/api")
                 +:+ "/deposit/depositions/" +:+ number).
Proof.
  intros self. unfold ZenodoFetcher.get_doi.
  destruct (ZenodoFetcher._dataset_to_doi self !! dataset) as [doi'|] eqn:Hl;
    [|discriminate].
  intros [= ->]. unfold self, ZenodoFetcher.__init__ in Hl.
  cbn [ZenodoFetcher._dataset_to_doi] in Hl.
  destruct use_sandbox; cbn [ZenodoFetcher.DOI] in Hl;
    apply elem_of_list_to_map_2 in Hl;
    repeat (apply elem_of_cons in Hl as [[= -> ->]|Hl];
            [eexists; split; reflexivity|]);
    by apply elem_of_nil in Hl.
Qed.

Lemma _doi_to_url_accepts_every_configured_doi_witness :
  ZenodoFetcher.get_doi (ZenodoFetcher.__init__ false) "ferc1"
  = Return "10.5281/zenodo.4127044"
  /\ exists number : string,
       "10.5281/zenodo.4127044" = "10.5281" +:+ "/zenodo." +:+ number
       /\ ZenodoFetcher._doi_to_url (ZenodoFetcher.__init__ false)
            "10.5281/zenodo.4127044"
          = Return ("https://zenodo.org/api" +:+ "/deposit/depositions/"
                    +:+ number).
Proof.
  split; [reflexivity|].
  exact (_doi_to_url_accepts_every_configured_doi false "ferc1"
           "10.5281/zenodo.4127044" eq_refl).
Defined.

(** ** The commands *)

Section CommandFacts.
Context `{Externals} {C : Type} `{!resource_cache.AbstractCache C}.
Import resource_cache Datastore.

Lemma bind_get_resources_given given partition co sk filters :
  bind_get_resources given partition = Some (co, sk, filters) ->
  (given = "cached_only" -> co = true)
  /\ (given = "skip_optimally_cached" -> sk = true).
Proof.
  unfold bind_get_resources. case_bool_decide; [discriminate|].
  intros [= <- <- <-]. split; intros ->. all: by rewrite lookup_insert_eq.
Qed.

Lemma descriptor_known ds doi desc (dstore : Datastore.t C) n :
  ZenodoFetcher.get_doi (_zenodo_fetcher dstore) ds = Return doi ->
  _datapackage_descriptors dstore !! doi = Some desc ->
  get_datapackage_descriptor ds (dstore, n) = ((dstore, n), Return desc).
Proof.
  intros Hdoi Hmemo. by rewrite get_datapackage_descriptor_eq, Hdoi, Hmemo.
Qed.

(** A turn that may not download changes the cache at most. *)
Lemma get_resources_turn_cached_only sk res (dstore : Datastore.t C) n :
  exists c' r,
    get_resources_turn true sk res (dstore, n)
    = ((mk c' (_datapackage_descriptors dstore) (_zenodo_fetcher dstore), n), r).
Proof.
  rewrite get_resources_turn_eq. destruct dstore as [c memo zf].
  cbn [_cache _datapackage_descriptors _zenodo_fetcher].
  destruct (is_optimally_cached c res && sk); [by eauto|].
  destruct (contains c res); [|by eauto].
  destruct (get res c) as [c' [v|e]]; by eauto.
Qed.

Lemma validate_loop_frame descriptor sk keys (dstore : Datastore.t C) n :
  exists c' r,
    validate_loop descriptor true sk keys (dstore, n)
    = ((mk c' (_datapackage_descriptors dstore) (_zenodo_fetcher dstore), n), r).
Proof.
  revert dstore. induction keys as [|key rest IH]; intros dstore.
  - destruct dstore. cbn. by eauto.
  - cbn [validate_loop]. unfold bind at 1 2.
    destruct (get_resources_turn_cached_only sk key dstore n) as (c1 & r1 & ->).
    destruct r1 as [[[res content]|]|e]; [| |by eauto].
    + set (d1 := mk c1 _ _).
      destruct (DatapackageDescriptor.validate_checksum descriptor
                  (PudlResourceKey.name res) content) as [[]|e].
      * unfold ret. apply (IH d1).
      * destruct e; try (unfold raise; by eauto).
        unfold remove_from_cache, on_cache. cbn [fst snd d1 _cache
          _datapackage_descriptors _zenodo_fetcher].
        destruct (delete res c1) as [c2 [[]|e]]; [|by eauto].
        apply (IH (mk c2 _ _)).
    + unfold ret. apply (IH (mk c1 _ _)).
Qed.
End CommandFacts.

(** X24.  [validate_cache] reaches for the network for descriptors only:
    when the datastore knows the descriptor of every dataset it is to
    validate, the run sends no request, whatever the partition and
    however it ends, and the descriptors and the fetcher are left as
    they were.  Only the cache can change. *)
Theorem validate_cache_sends_nothing_once_the_descriptors_are_known
    `{Externals} {C : Type} `{!resource_cache.AbstractCache C}
    (datasets : list string) (partition : gmap string string)
    (dstore : Datastore.t C) (n : Net) :
  descriptors_known datasets dstore ->
  let s' := (validate_cache datasets partition (dstore, n)).1 in
  s'.2 = n
  /\ Datastore._datapackage_descriptors s'.1
     = Datastore._datapackage_descriptors dstore
  /\ Datastore._zenodo_fetcher s'.1 = Datastore._zenodo_fetcher dstore.
Proof.
  revert dstore. induction datasets as [|ds rest IH]; intros dstore Hknown;
    [by repeat split|].
  destruct (Hknown ds) as (doi & desc & Hdoi & Hmemo); [by left|].
  cbn [validate_cache]. rewrite (descriptor_known _ _ _ _ _ Hdoi Hmemo).
  destruct (bind_get_resources "cached_only" partition)
    as [[[co sk] filters]|] eqn:Hbind; [|by repeat split].
  destruct (bind_get_resources_given _ _ _ _ _ Hbind) as [Hco _].
  specialize (Hco eq_refl) as ->.
  unfold bind. rewrite (descriptor_known _ _ _ _ _ Hdoi Hmemo).
  destruct (validate_loop_frame desc sk
              (DatapackageDescriptor.get_resources desc
                 (default PyNone (filters !! "name")) (delete "name" filters))
              dstore n) as (c' & r & ->).
  destruct r as [[]|e]; [|by repeat split].
  apply (IH (Datastore.mk c' _ _)).
  intros ds' Hin. destruct (Hknown ds') as (doi' & desc' & ? & ?); [by right|].
  by exists doi', desc'.
Qed.

Lemma validate_cache_sends_nothing_once_the_descriptors_are_known_witness :
  descriptors_known ["epacems"] epacems_damaged
  /\ let s' := (validate_cache (H := scripted) ["epacems"]
                  {[ "year" := "2019" ]} (epacems_damaged, script [])).1 in
     s'.2 = script []
     /\ Datastore._datapackage_descriptors s'.1
        = Datastore._datapackage_descriptors epacems_damaged
     /\ Datastore._zenodo_fetcher s'.1 = Datastore._zenodo_fetcher epacems_damaged.
Proof.
  assert (Hknown : descriptors_known ["epacems"] epacems_damaged).
  { intros ds ->%list_elem_of_singleton.
    exists epacems_doi, epacems_descriptor. split; reflexivity. }
  split; [exact Hknown|].
  exact (validate_cache_sends_nothing_once_the_descriptors_are_known
           (H := scripted) ["epacems"] {[ "year" := "2019" ]}
           epacems_damaged (script []) Hknown).
Defined.

Lemma bool_decide_elem_of_tail (key res : PudlResourceKey.t) rest :
  key <> res -> bool_decide (key ∈ res :: rest) = bool_decide (key ∈ rest).
Proof.
  intros Hne. apply bool_decide_ext. rewrite elem_of_cons.
  split; [by intros [?|?]|by right].
Qed.

(** A cache whose content can be told key by key: [peek] is what the
    cache holds for a key, and the operations that succeed act on it as
    their names say. *)
Section ObservedCache.
Context `{Externals} {C : Type} `{!resource_cache.AbstractCache C}.
Import resource_cache Datastore.
Variable peek : C -> PudlResourceKey.t -> option string.
Hypothesis contains_peek :
  forall c k, contains c k = true <-> is_Some (peek c k).
Hypothesis get_peek :
  forall c c' k v, get k c = (c', Return v) ->
    peek c k = Some v /\ forall k', peek c' k' = peek c k'.
Hypothesis delete_peek :
  forall c c' k, delete k c = (c', Return tt) ->
    forall k', peek c' k' = if decide (k' = k) then None else peek c k'.

Lemma validate_loop_peek descriptor keys (dstore : Datastore.t C) n s' :
  validate_loop descriptor true false keys (dstore, n) = (s', Return tt) ->
  forall key,
    peek (_cache s'.1) key
    = match peek (_cache dstore) key with
      | Some content =>
          if bool_decide (key ∈ keys) && fails_checksum descriptor key content
          then None else Some content
      | None => None
      end.
Proof.
  revert dstore. induction keys as [|res rest IH]; intros dstore.
  { cbn. intros [= <-] key. cbn. by destruct (peek _ key). }
  cbn [validate_loop]. unfold bind at 1 2. rewrite get_resources_turn_eq.
  rewrite andb_false_r.
  destruct (contains (_cache dstore) res) eqn:Hc.
  - destruct (get res (_cache dstore)) as [c1 [v|e]] eqn:Hget; [|discriminate].
    destruct (get_peek _ _ _ _ Hget) as [Hv Hsame].
    destruct (DatapackageDescriptor.validate_checksum descriptor
                (PudlResourceKey.name res) v) as [[]|e] eqn:Hval.
    + unfold ret. intros Hrest key.
      rewrite (IH _ Hrest key). cbn [_cache]. rewrite Hsame.
      destruct (peek (_cache dstore) key) as [content|] eqn:Hk; [|done].
      destruct (decide (key = res)) as [->|Hne].
      * assert (content = v) as -> by congruence.
        unfold fails_checksum. rewrite Hval. by rewrite !andb_false_r.
      * by rewrite (bool_decide_elem_of_tail _ _ _ Hne).
    + destruct e; try discriminate.
      unfold remove_from_cache, on_cache.
      cbn [fst snd _cache _datapackage_descriptors _zenodo_fetcher].
      destruct (delete res c1) as [c2 [[]|e]] eqn:Hdel; [|discriminate].
      intros Hrest key. rewrite (IH _ Hrest key). cbn [_cache].
      rewrite (delete_peek _ _ _ Hdel key), Hsame.
      destruct (decide (key = res)) as [->|Hne].
      * rewrite Hv. unfold fails_checksum. rewrite Hval.
        by rewrite bool_decide_eq_true_2 by left.
      * by rewrite (bool_decide_elem_of_tail _ _ _ Hne).
  - unfold ret. intros Hrest key. rewrite (IH _ Hrest key).
    destruct (peek (_cache dstore) key) as [content|] eqn:Hk; [|done].
    assert (key <> res) as Hne.
    { intros ->. apply not_true_iff_false in Hc. apply Hc, contains_peek.
      by rewrite Hk. }
    by rewrite (bool_decide_elem_of_tail _ _ _ Hne).
Qed.

Lemma get_resources_loop_cached co sk keys c memo zf n :
  Forall (fun key => contains c key = true) keys ->
  exists c' r,
    get_resources_loop co sk keys (mk c memo zf, n) = ((mk c' memo zf, n), r)
    /\ forall ys, r = Return ys -> forall key, peek c' key = peek c key.
Proof.
  revert c. induction keys as [|res rest IH]; intros c Hall.
  { cbn. eexists _, _. split; [reflexivity|]. done. }
  inversion Hall as [|? ? Hres Hrest]; subst.
  cbn [get_resources_loop]. unfold bind at 1. rewrite get_resources_turn_eq.
  cbn [_cache _datapackage_descriptors _zenodo_fetcher].
  assert (Hstep : forall c1, (forall key, peek c1 key = peek c key) ->
    forall y, exists c' r,
      (ys <- get_resources_loop co sk rest ;;
       ret (match y with Some x => x :: ys | None => ys end))%py
        (mk c1 memo zf, n)
      = ((mk c' memo zf, n), r)
      /\ forall ys, r = Return ys -> forall key, peek c' key = peek c key).
  { intros c1 Hsame y.
    destruct (IH c1) as (c' & r & Hloop & Hpeek).
    { eapply Forall_impl; [exact Hrest|]. cbn. intros key Hk.
      apply contains_peek. rewrite Hsame. by apply contains_peek. }
    unfold bind. rewrite Hloop.
    destruct r as [ys|e].
    - eexists _, _. split; [reflexivity|]. intros _ _ key.
      rewrite (Hpeek ys eq_refl key). apply Hsame.
    - eexists _, _. split; [reflexivity|]. discriminate. }
  destruct (is_optimally_cached c res && sk).
  { apply (Hstep c (fun _ => eq_refl) None). }
  rewrite Hres.
  destruct (get res c) as [c1 [v|e]] eqn:Hget.
  - apply (Hstep c1 (proj2 (get_peek _ _ _ _ Hget)) (Some (res, v))).
  - eexists _, _. split; [reflexivity|]. discriminate.
Qed.
End ObservedCache.

(** The layered cache is such a cache. *)
Section LayeredFacts.
Import resource_cache.

Lemma layered_contains_peek (c : LayeredCache) k :
  contains c k = true <-> is_Some (layered_peek c k).
Proof.
  unfold layered_peek. induction c as [|l c IH]; cbn.
  - split; [discriminate|]. by intros [? ?].
  - unfold layer_contains at 1. destruct (l !! k) as [v|] eqn:Hl.
    + rewrite bool_decide_eq_true_2 by eauto. cbn. split; eauto.
    + rewrite bool_decide_eq_false_2 by (by intros [? ?]). cbn.
      rewrite IH. by destruct (layered_find c k) as [[i v]|].
Qed.

Lemma layered_find_backfill (c : LayeredCache) k i v k' :
  layered_find c k = Some (i, v) ->
  snd <$> layered_find (backfill i k v c) k' = snd <$> layered_find c k'.
Proof.
  revert i. induction c as [|l c IH]; intros i; [discriminate|].
  cbn [layered_find]. destruct (l !! k) as [w|] eqn:Hl.
  { intros [= <- <-]. reflexivity. }
  destruct (layered_find c k) as [[j w]|] eqn:Hfind; [|discriminate].
  intros [= <- <-]. unfold backfill. cbn [take drop fmap list_fmap app].
  fold (backfill j k w c). cbn [layered_find].
  destruct (decide (k' = k)) as [->|Hne].
  - unfold layer in *. rewrite lookup_insert_eq, Hl, Hfind. reflexivity.
  - unfold layer in *. rewrite lookup_insert_ne by done.
    destruct (l !! k'); [done|]. specialize (IH j eq_refl).
    destruct (layered_find (backfill j k w c) k') as [[? ?]|],
             (layered_find c k') as [[? ?]|]; cbn in *; congruence.
Qed.

Lemma layered_get_peek (c c' : LayeredCache) k v :
  get k c = (c', Return v) ->
  layered_peek c k = Some v
  /\ forall k', layered_peek c' k' = layered_peek c k'.
Proof.
  cbn. unfold layered_get, layered_peek.
  destruct (layered_find c k) as [[i w]|] eqn:Hfind; [|discriminate].
  intros [= <- <-]. split; [done|]. intros k'.
  by apply layered_find_backfill.
Qed.

Lemma layered_delete_peek (c c' : LayeredCache) k :
  delete k c = (c', Return tt) ->
  forall k', layered_peek c' k'
             = if decide (k' = k) then None else layered_peek c k'.
Proof.
  cbn. unfold modify. intros [= <-] k'. unfold layered_peek.
  induction c as [|l c IH]; cbn.
  - by destruct (decide (k' = k)).
  - destruct (decide (k' = k)) as [->|Hne].
    + unfold layer in *. rewrite lookup_delete_eq.
      by destruct (layered_find _ k) as [[? ?]|].
    + unfold layer in *. rewrite lookup_delete_ne by done.
      destruct (l !! k'); [done|].
      destruct (layered_find c k') as [[? ?]|],
               (layered_find _ k') as [[? ?]|]; cbn in *; congruence.
Qed.
End LayeredFacts.

(** X25.  What [validate_cache] leaves in the cache.  For a cache whose
    content can be told key by key, a dataset whose descriptor the
    datastore knows, and a partition that does not ask to skip what is
    optimally cached: when the run returns, the cache has lost the
    resources of the selection whose cached content fails the checksum
    of the descriptor, and holds everything else as before. *)
Theorem validate_cache_removes_exactly_what_fails_its_checksum
    `{Externals} {C : Type} `{!resource_cache.AbstractCache C}
    (peek : C -> PudlResourceKey.t -> option string)
    (dataset doi : string) (partition : gmap string string)
    (descriptor : DatapackageDescriptor.t) (filters : gmap string pyval)
    (dstore : Datastore.t C) (n : Net) (s' : Datastore.t C * Net) :
  (forall c k, resource_cache.contains c k = true <-> is_Some (peek c k)) ->
  (forall c c' k v, resource_cache.get k c = (c', Return v) ->
     peek c k = Some v /\ forall k', peek c' k' = peek c k') ->
  (forall c c' k, resource_cache.delete k c = (c', Return tt) ->
     forall k', peek c' k' = if decide (k' = k) then None else peek c k') ->
  ZenodoFetcher.get_doi (Datastore._zenodo_fetcher dstore) dataset = Return doi ->
  Datastore._datapackage_descriptors dstore !! doi = Some descriptor ->
  bind_get_resources "cached_only" partition = Some (true, false, filters) ->
  validate_cache [dataset] partition (dstore, n) = (s', Done) ->
  forall key,
    peek (Datastore._cache s'.1) key
    = match peek (Datastore._cache dstore) key with
      | Some content =>
          if bool_decide
               (key ∈ DatapackageDescriptor.get_resources descriptor
                        (default PyNone (filters !! "name"))
                        (delete "name" filters))
             && fails_checksum descriptor key content
          then None else Some content
      | None => None
      end.
Proof.
  intros Hcontains Hget Hdelete Hdoi Hmemo Hbind.
  cbn [validate_cache]. rewrite (descriptor_known _ _ _ _ _ Hdoi Hmemo), Hbind.
  unfold bind. rewrite (descriptor_known _ _ _ _ _ Hdoi Hmemo).
  destruct (validate_loop descriptor true false _ (dstore, n))
    as [s2 [[]|e]] eqn:Hloop; [|discriminate].
  intros [= <-].
  exact (validate_loop_peek peek Hcontains Hget Hdelete _ _ _ _ _ Hloop).
Qed.

Lemma validate_cache_removes_exactly_what_fails_its_checksum_witness :
  let partition : gmap string string := {[ "year" := "2019" ]} in
  let filters : gmap string pyval := {[ "year" := PyStr "2019" ]} in
  let s' := (Datastore.mk [ {[ epacems_key "co" := "abc" ]} ]
               {[ epacems_doi := epacems_descriptor ]}
               (ZenodoFetcher.__init__ false), script []) in
  (bind_get_resources "cached_only" partition = Some (true, false, filters)
   /\ validate_cache (H := scripted) ["epacems"] partition
        (epacems_damaged, script []) = (s', Done))
  /\ forall key,
       layered_peek (Datastore._cache s'.1) key
       = match layered_peek (Datastore._cache epacems_damaged) key with
         | Some content =>
             if bool_decide
                  (key ∈ DatapackageDescriptor.get_resources epacems_descriptor
                           (default PyNone (filters !! "name"))
                           (delete "name" filters))
                && fails_checksum epacems_descriptor key content
             then None else Some content
         | None => None
         end.
Proof.
  intros partition filters s'.
  assert (Hbind : bind_get_resources "cached_only" partition
                  = Some (true, false, filters)) by reflexivity.
  assert (Hrun : validate_cache (H := scripted) ["epacems"] partition
                   (epacems_damaged, script []) = (s', Done)) by reflexivity.
  split; [by split|].
  exact (validate_cache_removes_exactly_what_fails_its_checksum (H := scripted)
           layered_peek "epacems" epacems_doi partition epacems_descriptor
           filters epacems_damaged (script []) s'
           layered_contains_peek layered_get_peek layered_delete_peek
           eq_refl eq_refl Hbind Hrun).
Defined.

(** X26.  [fetch_resources] sends nothing for what the cache has.  For a
    cache whose content can be told key by key: when the datastore knows
    the descriptor of every dataset of the run and the cache contains
    every resource the partition selects from them, the run sends no
    request, however it ends, and leaves descriptors and fetcher as they
    were. *)
Theorem fetch_resources_sends_nothing_for_what_is_cached
    `{Externals} {C : Type} `{!resource_cache.AbstractCache C}
    (peek : C -> PudlResourceKey.t -> option string)
    (datasets : list string) (partition : gmap string string)
    (cached_only skip : bool) (filters : gmap string pyval)
    (dstore : Datastore.t C) (n : Net) :
  (forall c k, resource_cache.contains c k = true <-> is_Some (peek c k)) ->
  (forall c c' k v, resource_cache.get k c = (c', Return v) ->
     peek c k = Some v /\ forall k', peek c' k' = peek c k') ->
  bind_get_resources "skip_optimally_cached" partition
  = Some (cached_only, skip, filters) ->
  (forall dataset, dataset ∈ datasets ->
     exists doi descriptor,
       ZenodoFetcher.get_doi (Datastore._zenodo_fetcher dstore) dataset
       = Return doi
       /\ Datastore._datapackage_descriptors dstore !! doi = Some descriptor
       /\ Forall (fun key => resource_cache.contains (Datastore._cache dstore) key
                             = true)
                 (DatapackageDescriptor.get_resources descriptor
                    (default PyNone (filters !! "name"))
                    (delete "name" filters))) ->
  let s' := (fetch_resources datasets partition (dstore, n)).1 in
  s'.2 = n
  /\ Datastore._datapackage_descriptors s'.1
     = Datastore._datapackage_descriptors dstore
  /\ Datastore._zenodo_fetcher s'.1 = Datastore._zenodo_fetcher dstore.
Proof.
  intros Hcontains Hget Hbind. destruct dstore as [c memo zf].
  cbn [Datastore._zenodo_fetcher Datastore._datapackage_descriptors
       Datastore._cache].
  revert c. induction datasets as [|ds rest IH]; intros c Hknown;
    [by repeat split|].
  destruct (Hknown ds) as (doi & desc & Hdoi & Hmemo & Hall); [by left|].
  cbn [fetch_resources]. rewrite Hbind. unfold Datastore.get_resources, bind.
  rewrite (descriptor_known ds doi desc (Datastore.mk c memo zf) n Hdoi Hmemo).
  destruct (get_resources_loop_cached peek Hcontains Hget cached_only skip
              _ c memo zf n Hall) as (c' & r & -> & Hpeek).
  destruct r as [ys|e]; [|by repeat split].
  apply IH. intros ds' Hin.
  destruct (Hknown ds') as (doi' & desc' & ? & ? & Hall'); [by right|].
  exists doi', desc'. split; [done|]. split; [done|].
  eapply Forall_impl; [exact Hall'|]. cbn. intros key Hk.
  apply Hcontains. rewrite (Hpeek ys eq_refl). by apply Hcontains.
Qed.

Lemma fetch_resources_sends_nothing_for_what_is_cached_witness :
  let partition : gmap string string := {[ "state" := "co" ]} in
  let s' := (fetch_resources (H := scripted) ["epacems"] partition
               (epacems_store, script [])).1 in
  s'.2 = script []
  /\ Datastore._datapackage_descriptors s'.1
     = Datastore._datapackage_descriptors epacems_store
  /\ Datastore._zenodo_fetcher s'.1 = Datastore._zenodo_fetcher epacems_store.
Proof.
  intros partition.
  set (filters := {[ "state" := PyStr "co" ]} : gmap string pyval).
  assert (Hbind : bind_get_resources "skip_optimally_cached" partition
                  = Some (false, true, filters)) by reflexivity.
  assert (Hsel : DatapackageDescriptor.get_resources epacems_descriptor
                   (default PyNone (filters !! "name")) (delete "name" filters)
                 = [epacems_key "co"]) by reflexivity.
  apply (fetch_resources_sends_nothing_for_what_is_cached (H := scripted)
           layered_peek ["epacems"] partition false true filters
           epacems_store (script [])
           layered_contains_peek layered_get_peek Hbind).
  intros ds ->%list_elem_of_singleton.
  exists epacems_doi, epacems_descriptor.
  split; [reflexivity|]. split; [reflexivity|].
  rewrite Hsel. by repeat constructor.
Defined.
